(** * History-aware retriever: the branch router of
      [langchain/chains/history_aware_retriever.py]

    The chain built by [create_history_aware_retriever] inspects the shape of
    one turn (a Python dict) and either forwards the turn text to the
    retriever or first has the language model rewrite it.  The development
    embeds the Python values the router inspects, the exceptions it can meet,
    the runnables it composes, and proves the routing properties. *)

From Stdlib Require Import ZArith String Ascii List Bool Lia.
From stdpp Require Import base option strings gmap.
Import ListNotations.

Local Open Scope string_scope.
Local Open Scope list_scope.

(** ** Python values *)

(** Modelled from the spec: the [BaseMessage] class lives in
    [langchain_core.messages]; a message is a role with a content, and the
    content is kept as an arbitrary value because the router forwards it
    untouched.  The other constructors are the builtin values a turn
    dictionary can hold under its keys. *)
#[warnings="-register-all"]
Inductive PyVal : Type :=
| VNone
| VBool (b : bool)
| VInt (n : Z)
| VStr (s : string)
| VList (l : list PyVal)
| VTuple (l : list PyVal)
| VDict (d : list (string * PyVal))
| VMsg (role : string) (content : PyVal).

(** The turn handed to the router: [x: Dict], looked up by string keys. *)
Abbreviation Dict := (gmap string PyVal).

(** The exceptions that evaluating the router's own expressions can raise,
    and [Other] for whatever else a collaborator raises. *)
Inductive Exn : Type :=
| KeyError (k : PyVal)
| IndexError
| TypeError
| AttributeError (attr : string)
| ValueError (msg : string) (shown : list string)
| Other (name info : string).

(** ** Evaluation of Python expressions: a result or a raised exception *)

Definition Py (A : Type) : Type := (Exn + A)%type.

Definition ok {A} (a : A) : Py A := inr a.
Definition raise {A} (e : Exn) : Py A := inl e.

Definition py_bind {A B} (m : Py A) (f : A -> Py B) : Py B :=
  match m with
  | inl e => inl e
  | inr a => f a
  end.

Declare Scope py_scope.
Delimit Scope py_scope with py.
Notation "'let*' v ':=' m 'in' k" := (py_bind m (fun v => k))
  (at level 10, v name, m at level 100, k at level 200) : py_scope.

Definition raised {A} (r : Py A) : option Exn :=
  match r with
  | inl e => Some e
  | inr _ => None
  end.

(** [a and b]: [b] is evaluated only when [a] is true. *)
Definition py_and (a b : Py bool) : Py bool :=
  match a with
  | inl e => inl e
  | inr true => b
  | inr false => inr false
  end.

(** [bool(v)], as [not v] and [if v:] compute it. *)
Definition truthy (v : PyVal) : bool :=
  match v with
  | VNone => false
  | VBool b => b
  | VInt n => negb (n =? 0)%Z
  | VStr s => negb (String.eqb s "")
  | VList l | VTuple l => negb (Nat.eqb (length l) 0)
  | VDict d => negb (Nat.eqb (length d) 0)
  | VMsg _ _ => true
  end.

(** [isinstance(v, list)] and [isinstance(v, BaseMessage)]. *)
Definition isinstance_list (v : PyVal) : bool :=
  match v with
  | VList _ => true
  | _ => false
  end.

Definition isinstance_BaseMessage (v : PyVal) : bool :=
  match v with
  | VMsg _ _ => true
  | _ => false
  end.

(** [len(v)]: a [TypeError] on a value without a length. *)
Definition py_len (v : PyVal) : Py nat :=
  match v with
  | VStr s => ok (String.length s)
  | VList l | VTuple l => ok (length l)
  | VDict d => ok (length d)
  | VNone | VBool _ | VInt _ | VMsg _ _ => raise TypeError
  end.

(** [for i in v]: the elements iteration visits, a [TypeError] on a value
    that is not iterable. *)
Definition py_iter (v : PyVal) : Py (list PyVal) :=
  match v with
  | VStr s => ok (map (fun c => VStr (String c EmptyString)) (list_ascii_of_string s))
  | VList l | VTuple l => ok l
  | VDict d => ok (map (fun kv => VStr (fst kv)) d)
  | VNone | VBool _ | VInt _ | VMsg _ _ => raise TypeError
  end.

(** [x.get(k, d)] and [x[k]] on the turn dictionary. *)
Definition dict_get (x : Dict) (k : string) (d : PyVal) : PyVal :=
  default d (x !! k).

Definition dict_getitem (x : Dict) (k : string) : Py PyVal :=
  match x !! k with
  | Some v => ok v
  | None => raise (KeyError (VStr k))
  end.

(** [v[-1]]. *)
Definition py_last (v : PyVal) : Py PyVal :=
  match v with
  | VList l | VTuple l =>
      match rev l with
      | [] => raise IndexError
      | a :: _ => ok a
      end
  | VStr s =>
      match rev (list_ascii_of_string s) with
      | [] => raise IndexError
      | c :: _ => ok (VStr (String c EmptyString))
      end
  | VDict _ => raise (KeyError (VInt (-1)))
  | VNone | VBool _ | VInt _ | VMsg _ _ => raise TypeError
  end.

(** [v.content]. *)
Definition py_content (v : PyVal) : Py PyVal :=
  match v with
  | VMsg _ c => ok c
  | _ => raise (AttributeError "content")
  end.

(** ** The classifier of the source *)

(** [messages_param_is_message_list], lines 61-66. *)
Definition messages_param_is_message_list (x : Dict) : Py bool :=
  py_and (ok (isinstance_list (dict_get x "messages" (VList []))))
    (py_and (let* n := py_len (dict_get x "messages" (VList [])) in ok (0 <? n)%nat)%py
       (let* l := py_iter (dict_get x "messages" (VList [])) in
        ok (forallb isinstance_BaseMessage l))%py).

(** The three branch conditions, the lambdas of lines 70-71, 75-76 and 81. *)
Definition condition_1 (x : Dict) : Py bool :=
  py_and (messages_param_is_message_list x)
    (let* n := py_len (dict_get x "messages" (VList [])) in ok (1 <? n)%nat)%py.

Definition condition_2 (x : Dict) : Py bool :=
  py_and (messages_param_is_message_list x)
    (let* n := py_len (dict_get x "messages" (VList [])) in ok (n =? 1)%nat)%py.

Definition condition_3 (x : Dict) : Py bool :=
  ok (negb (truthy (dict_get x "chat_history" (VBool false)))).

(** The two passthrough lambdas, lines 77 and 83. *)
Definition messages_last_content (x : Dict) : Py PyVal :=
  (let* ms := dict_getitem x "messages" in
   let* m := py_last ms in
   py_content m)%py.

Definition input_text (x : Dict) : Py PyVal :=
  dict_getitem x "input".

(** The classifier predicates in the spec's words (4.1). *)
Definition isMessageList (x : Dict) : bool :=
  match x !! "messages" with
  | Some (VList (m :: ms)) => forallb isinstance_BaseMessage (m :: ms)
  | _ => false
  end.

Definition messages_length (x : Dict) : nat :=
  match x !! "messages" with
  | Some (VList ms) => length ms
  | _ => 0
  end.

Definition hasMultiTurnMessages (x : Dict) : bool :=
  isMessageList x && (1 <? messages_length x)%nat.

Definition hasSingleTurnMessages (x : Dict) : bool :=
  isMessageList x && (messages_length x =? 1)%nat.

Definition hasEmptyLegacyHistory (x : Dict) : bool :=
  match x !! "chat_history" with
  | None | Some (VStr "") | Some (VList []) | Some (VTuple []) => true
  | _ => false
  end.

(** A legacy history with something in it: a non-empty sequence or string. *)
Definition hasNonEmptyLegacyHistory (x : Dict) : bool :=
  match x !! "chat_history" with
  | Some (VList (_ :: _)) | Some (VTuple (_ :: _)) => true
  | Some (VStr s) => negb (String.eqb s "")
  | _ => false
  end.

(** ** Runnables *)

Section Runnables.

(** [W] is the state of the world the collaborators live in (a model's
    sampling state, a retriever's index); the other three are the values
    the collaborators exchange, opaque to the router. *)
Context {W PromptValue LLMOut Doc : Type}.

(** What a run records, as the callback manager sees it: every runnable
    the chain invokes, with its input and the exception it raised if any;
    the conditions a branch evaluates; the branch whose action starts. *)
Inductive Call : Type :=
| CallPrompt (x : Dict)
| CallLLM (p : PromptValue)
| CallParser (o : LLMOut)
| CallRetriever (q : PyVal)
| CallPassthrough (x : Dict).

Inductive Event : Type :=
| EvCondition (i : nat) (v : Py bool)
| EvBranch (i : nat)
| EvDefault
| EvInvoke (c : Call) (exn : option Exn).

(** A computation of the chain: it starts in a world, raises or returns,
    leaves a world behind and a trace of what it invoked. *)
Definition M (A : Type) : Type := W -> Py A * W * list Event.

Definition Runnable (A B : Type) : Type := A -> M B.

Definition m_bind {A B} (m : M A) (f : A -> M B) : M B :=
  fun w =>
    match m w with
    | (inl e, w1, t1) => (inl e, w1, t1)
    | (inr a, w1, t1) =>
        let '(r, w2, t2) := f a w1 in (r, w2, t1 ++ t2)
    end.

Definition emit (ev : Event) : M unit :=
  fun w => (inr tt, w, [ev]).

(** A collaborator is a stateful function; invoking it is recorded. *)
Definition Collaborator (A B : Type) : Type := A -> W -> Py B * W.

Definition runnable_of {A B} (c : A -> Call) (f : Collaborator A B)
  : Runnable A B :=
  fun a w =>
    let '(r, w') := f a w in (r, w', [EvInvoke (c a) (raised r)]).

(** [RunnableLambda]: a function of the source coerced to a runnable. *)
Definition RunnableLambda {A B} (c : A -> Call) (f : A -> Py B)
  : Runnable A B :=
  fun a w => (f a, w, [EvInvoke (c a) (raised (f a))]).

(** Modelled from the spec: the [|] of runnables ([RunnableSequence] of
    [langchain_core.runnables]) hands the output of one stage to the
    next; an exception of a stage ends the sequence and is the
    sequence's exception. *)
Definition pipe {A B C} (f : Runnable A B) (g : Runnable B C)
  : Runnable A C :=
  fun a => m_bind (f a) g.

(** Modelled from the spec: [RunnableBranch] of [langchain_core.runnables]
    is a priority-ordered, first-match selector evaluated once per
    invocation: the conditions are evaluated in the order given, the
    action of the first one that holds runs, the default runs when none
    holds.  A condition is a plain function here (the source passes
    lambdas). *)
Fixpoint branch_from {A B} (i : nat)
    (branches : list ((A -> Py bool) * Runnable A B))
    (default : Runnable A B) : Runnable A B :=
  fun a =>
    match branches with
    | [] => m_bind (emit EvDefault) (fun _ => default a)
    | (condition, action) :: rest =>
        m_bind (fun w => (condition a, w, [EvCondition i (condition a)]))
          (fun v : bool =>
             if v then m_bind (emit (EvBranch i)) (fun _ => action a)
             else branch_from (S i) rest default a)
    end.

Definition RunnableBranch {A B}
    (branches : list ((A -> Py bool) * Runnable A B))
    (default : Runnable A B) : Runnable A B :=
  branch_from 1 branches default.

(** [with_config(run_name=...)] names the run and leaves its behaviour. *)
Definition with_config {A B} (run_name : string) (r : Runnable A B)
  : Runnable A B := r.

Definition invoke {A B} (r : Runnable A B) (a : A) : M B := r a.

(** ** The collaborators and the chain *)

Record BasePromptTemplate : Type := {
  input_variables : list string;
  prompt_invoke : Collaborator Dict PromptValue
}.

Definition LanguageModelLike : Type := Collaborator PromptValue LLMOut.
Definition RetrieverLike : Type := Collaborator PyVal (list Doc).
Definition RetrieverOutputLike : Type := Runnable Dict (list Doc).

(** [StrOutputParser()] of [langchain_core.output_parsers], taken as a
    parameter: it maps the model's output to a string. *)
Variable StrOutputParser : Collaborator LLMOut string.

(** [k in input_vars] on a list of strings. *)
Definition py_in (k : string) (l : list string) : bool :=
  existsb (String.eqb k) l.

Local Infix "|>" := pipe (at level 50, left associativity).

(** The branch of lines 68-87. *)
Definition retrieve_documents (llm : LanguageModelLike)
    (retriever : RetrieverLike) (prompt : BasePromptTemplate)
  : RetrieverOutputLike :=
  with_config "chat_retriever_chain"
    (RunnableBranch
       [ (condition_1,
          runnable_of CallPrompt (prompt_invoke prompt)
          |> runnable_of CallLLM llm
          |> runnable_of CallParser StrOutputParser
          |> runnable_of (fun s => CallRetriever (VStr s))
               (fun s => retriever (VStr s)));
         (condition_2,
          RunnableLambda CallPassthrough messages_last_content
          |> runnable_of CallRetriever retriever);
         (condition_3,
          RunnableLambda CallPassthrough input_text
          |> runnable_of CallRetriever retriever) ]
       (runnable_of CallPrompt (prompt_invoke prompt)
        |> runnable_of CallLLM llm
        |> runnable_of CallParser StrOutputParser
        |> runnable_of (fun s => CallRetriever (VStr s))
             (fun s => retriever (VStr s)))).

(** [create_history_aware_retriever], lines 13-88.  The [ValueError]
    carries the message and the variables the f-string prints. *)
Definition create_history_aware_retriever (llm : LanguageModelLike)
    (retriever : RetrieverLike) (prompt : BasePromptTemplate)
  : Py RetrieverOutputLike :=
  let input_vars := input_variables prompt in
  if negb (py_in "input" input_vars) && negb (py_in "messages" input_vars)
  then raise (ValueError
         "Expected either `input` or `messages` to be prompt variables, but got "
         input_vars)
  else ok (retrieve_documents llm retriever prompt).

(** ** What the spec calls things *)

(** The Query Rewrite Pipeline in the spec's words (4.3, 4.5): render the
    prompt against the turn, invoke the model on the rendered prompt,
    extract the text, retrieve with the resulting string; a stage that
    fails ends the run with its error. *)
Definition query_rewrite_pipeline (llm : LanguageModelLike)
    (retriever : RetrieverLike) (prompt : BasePromptTemplate)
  : Runnable Dict (list Doc) :=
  fun x w =>
    match prompt_invoke prompt x w with
    | (inl e, w1) => (inl e, w1, [EvInvoke (CallPrompt x) (Some e)])
    | (inr p, w1) =>
        match llm p w1 with
        | (inl e, w2) =>
            (inl e, w2,
             [EvInvoke (CallPrompt x) None; EvInvoke (CallLLM p) (Some e)])
        | (inr o, w2) =>
            match StrOutputParser o w2 with
            | (inl e, w3) =>
                (inl e, w3,
                 [EvInvoke (CallPrompt x) None; EvInvoke (CallLLM p) None;
                  EvInvoke (CallParser o) (Some e)])
            | (inr s, w3) =>
                let '(r, w4) := retriever (VStr s) w3 in
                (r, w4,
                 [EvInvoke (CallPrompt x) None; EvInvoke (CallLLM p) None;
                  EvInvoke (CallParser o) None;
                  EvInvoke (CallRetriever (VStr s)) (raised r)])
            end
        end
    end.

(** The Passthrough Adapter in the spec's words (4.4, 4.5): the text
    already resolved from the turn is the search query, untransformed. *)
Definition passthrough (retriever : RetrieverLike) (text : Dict -> Py PyVal)
  : Runnable Dict (list Doc) :=
  fun x w =>
    match text x with
    | inl e => (inl e, w, [EvInvoke (CallPassthrough x) (Some e)])
    | inr q =>
        let '(r, w') := retriever q w in
        (r, w',
         [EvInvoke (CallPassthrough x) None;
          EvInvoke (CallRetriever q) (raised r)])
    end.

(** A run that the router dispatched: the events of the dispatch come
    before those of the action. *)
Definition after (pre : list Event) {A} (run : Py A * W * list Event)
  : Py A * W * list Event :=
  let '(r, w, t) := run in (r, w, pre ++ t).

(** ** Reading a run and its trace *)

Definition outcome {A} (run : Py A * W * list Event) : Py A := fst (fst run).
Definition final_world {A} (run : Py A * W * list Event) : W := snd (fst run).
Definition trace {A} (run : Py A * W * list Event) : list Event := snd run.

Inductive Choice : Type :=
| Branch (i : nat)
| Default.

(** The actions a run started, in order. *)
Fixpoint started (t : list Event) : list Choice :=
  match t with
  | [] => []
  | EvBranch i :: t' => Branch i :: started t'
  | EvDefault :: t' => Default :: started t'
  | _ :: t' => started t'
  end.

(** The conditions a run evaluated, in order, with their values. *)
Fixpoint conditions (t : list Event) : list (nat * Py bool) :=
  match t with
  | [] => []
  | EvCondition i v :: t' => (i, v) :: conditions t'
  | _ :: t' => conditions t'
  end.

(** The search queries the retriever received. *)
Fixpoint search_queries (t : list Event) : list PyVal :=
  match t with
  | [] => []
  | EvInvoke (CallRetriever q) _ :: t' => q :: search_queries t'
  | _ :: t' => search_queries t'
  end.

Definition is_passthrough (ev : Event) : bool :=
  match ev with
  | EvInvoke (CallPassthrough _) _ => true
  | _ => false
  end.

(** The stages of the rewrite pipeline that precede the retriever. *)
Definition is_rewrite (ev : Event) : bool :=
  match ev with
  | EvInvoke (CallPrompt _) _ | EvInvoke (CallLLM _) _
  | EvInvoke (CallParser _) _ => true
  | _ => false
  end.

Definition is_retriever (ev : Event) : bool :=
  match ev with
  | EvInvoke (CallRetriever _) _ => true
  | _ => false
  end.

Definition is_prompt (ev : Event) : bool :=
  match ev with
  | EvInvoke (CallPrompt _) _ => true
  | _ => false
  end.

Definition is_llm (ev : Event) : bool :=
  match ev with
  | EvInvoke (CallLLM _) _ => true
  | _ => false
  end.

Definition is_parser (ev : Event) : bool :=
  match ev with
  | EvInvoke (CallParser _) _ => true
  | _ => false
  end.

(** The events of a dispatch: conditions and the start of an action. *)
Definition is_dispatch (ev : Event) : bool :=
  match ev with
  | EvInvoke _ _ => false
  | _ => true
  end.

Definition calls (p : Event -> bool) (t : list Event) : nat :=
  length (List.filter p t).

(** The collaborators proper: everything a run invokes but the lambdas. *)
Definition is_collaborator (c : Call) : bool :=
  match c with
  | CallPassthrough _ => false
  | _ => true
  end.

(** A run surfaces failures when an invoked runnable that raised is the
    last thing the run did and its exception is the run's outcome, and
    when an exceptional outcome is the exception of the last runnable
    invoked. *)
Definition surfaces_failures {A} (run : Py A * W * list Event) : Prop :=
  (forall c e, In (EvInvoke c (Some e)) (trace run) ->
     outcome run = inl e /\ last (trace run) = Some (EvInvoke c (Some e)))
  /\ (forall e, outcome run = inl e ->
       exists c, last (trace run) = Some (EvInvoke c (Some e))).

(** No collaborator is invoked twice in a run. *)
Definition no_retry (t : list Event) : Prop :=
  calls is_prompt t <= 1 /\ calls is_llm t <= 1 /\
  calls is_parser t <= 1 /\ calls is_retriever t <= 1.

(** What a run returns is what the retriever returned to the last call
    of the run, and the world is the one the retriever left. *)
Definition returns_retrieved (retriever : RetrieverLike)
    (run : Py (list Doc) * W * list Event) : Prop :=
  forall docs, outcome run = inr docs ->
    exists q w0,
      retriever q w0 = (inr docs, final_world run)
      /\ last (trace run) = Some (EvInvoke (CallRetriever q) None).

(** An exception of a run comes from a collaborator the run invoked. *)
Definition raised_by_collaborator {A} (e : Exn)
    (run : Py A * W * list Event) : Prop :=
  exists c, is_collaborator c = true /\ In (EvInvoke c (Some e)) (trace run).

(** A collaborator is deterministic when what it returns or raises does
    not depend on the world it runs in. *)
Definition deterministic {A B} (f : Collaborator A B) : Prop :=
  forall a w1 w2, fst (f a w1) = fst (f a w2).

End Runnables.


(** ** A concrete set of collaborators

    The world counts the collaborator calls made so far; prompts, model
    outputs and documents are strings. *)
Module Example.

Definition render (x : Dict) (n : nat) : Py string * nat :=
  match x !! "input" with
  | Some (VStr s) => (ok (String.append "Rephrase: " s), S n)
  | _ =>
      match x !! "messages" with
      | Some (VList _) => (ok "Rephrase the last message", S n)
      | _ => (raise (KeyError (VStr "input")), S n)
      end
  end.

Definition prompt : BasePromptTemplate :=
  {| input_variables := ["input"; "chat_history"]; prompt_invoke := render |}.

Definition topic_prompt : BasePromptTemplate :=
  {| input_variables := ["topic"]; prompt_invoke := render |}.

Definition llm : @LanguageModelLike nat string string :=
  fun p n => (ok (String.append "standalone: " p), S n).

Definition failing_llm : @LanguageModelLike nat string string :=
  fun p n => (raise (Other "RateLimitError" "429"), S n).

Definition parser : @Collaborator nat string string :=
  fun o n => (ok o, S n).

Definition retriever : @RetrieverLike nat string :=
  fun q n =>
    match q with
    | VStr s => (ok [String.append "doc 1 for " s; String.append "doc 2 for " s], S n)
    | _ => (raise TypeError, S n)
    end.

Definition user (s : string) : PyVal := VMsg "user" (VStr s).
Definition assistant (s : string) : PyVal := VMsg "assistant" (VStr s).

Definition three_messages : Dict :=
  {[ "messages" := VList [user "What is X?"; assistant "X is ...";
                          user "What about Y?"] ]}.

Definition one_message : Dict :=
  {[ "messages" := VList [user "What is X?"] ]}.

Definition no_history : Dict :=
  <[ "input" := VStr "What is X?" ]> {[ "chat_history" := VList [] ]}.

Definition with_history : Dict :=
  <[ "input" := VStr "What about it?" ]>
    {[ "chat_history" := VList [VStr "What is X?"; VStr "X is ..."] ]}.

Definition mixed_messages : Dict :=
  <[ "messages" := VList [user "What is X?"; VStr "X is ..."] ]>
    {[ "input" := VStr "What is X?" ]}.

Definition only_history : Dict :=
  {[ "chat_history" := VStr "" ]}.

Definition chain : Dict -> nat -> Py (list string) * nat * list Event :=
  invoke (retrieve_documents parser llm retriever prompt).

End Example.

(** More turns, for the properties beyond the claims. *)
Module MoreExamples.
Import Example.

Definition none_history : Dict :=
  <[ "input" := VStr "What is X?" ]> {[ "chat_history" := VNone ]}.

Definition no_history_other_input : Dict :=
  <[ "input" := VStr "Something else" ]>
    (<[ "session" := VInt 7 ]> {[ "chat_history" := VList [] ]}).

Definition one_message_and_history : Dict :=
  <[ "chat_history" := VList [VStr "an older turn"] ]>
    (<[ "input" := VStr "ignored" ]> one_message).

Definition failing_parser : @Collaborator nat string string :=
  fun o n => (raise (Other "OutputParserException" o), S n).

(** Collaborators that return on every input. *)
Definition total_render (x : Dict) (n : nat) : Py string * nat :=
  (ok "Rephrase the turn", S n).

Definition total_prompt : BasePromptTemplate :=
  {| input_variables := ["input"; "chat_history"];
     prompt_invoke := total_render |}.

Definition total_retriever : @RetrieverLike nat string :=
  fun q n => (ok ["the only document"], S n).

End MoreExamples.

(** The runnables a run invoked, in the order of the trace. *)
Inductive Stage : Type :=
| SPrompt
| SLLM
| SParser
| SRetriever
| SPassthrough.

Section Stages.

Context {PromptValue LLMOut : Type}.

Definition stage_of (c : @Call PromptValue LLMOut) : Stage :=
  match c with
  | CallPrompt _ => SPrompt
  | CallLLM _ => SLLM
  | CallParser _ => SParser
  | CallRetriever _ => SRetriever
  | CallPassthrough _ => SPassthrough
  end.

Fixpoint stages (t : list (@Event PromptValue LLMOut)) : list Stage :=
  match t with
  | [] => []
  | EvInvoke c _ :: t' => stage_of c :: stages t'
  | _ :: t' => stages t'
  end.

(** The invocations of a trace that raised, in order. *)
Fixpoint failures (t : list (@Event PromptValue LLMOut)) : list Stage :=
  match t with
  | [] => []
  | EvInvoke c (Some _) :: t' => stage_of c :: failures t'
  | _ :: t' => failures t'
  end.

End Stages.

(** ** The classifier computes the spec's predicates and never raises *)

Lemma messages_param_is_message_list_spec (x : Dict) :
  messages_param_is_message_list x = ok (isMessageList x).
Proof.
  unfold messages_param_is_message_list, isMessageList, dict_get.
  destruct (x !! "messages") as [v|]; simpl; [|reflexivity].
  destruct v as [| | | |l| | |]; simpl; try reflexivity.
  destruct l; reflexivity.
Qed.

Lemma messages_len_spec (x : Dict) :
  isMessageList x = true ->
  py_len (dict_get x "messages" (VList [])) = ok (messages_length x).
Proof.
  unfold isMessageList, messages_length, dict_get.
  destruct (x !! "messages") as [v|]; simpl; [|discriminate].
  destruct v; simpl; try discriminate. reflexivity.
Qed.

Lemma condition_1_spec (x : Dict) :
  condition_1 x = ok (hasMultiTurnMessages x).
Proof.
  unfold condition_1, hasMultiTurnMessages.
  rewrite messages_param_is_message_list_spec.
  destruct (isMessageList x) eqn:E; simpl; [|reflexivity].
  rewrite (messages_len_spec x E). reflexivity.
Qed.

Lemma condition_2_spec (x : Dict) :
  condition_2 x = ok (hasSingleTurnMessages x).
Proof.
  unfold condition_2, hasSingleTurnMessages.
  rewrite messages_param_is_message_list_spec.
  destruct (isMessageList x) eqn:E; simpl; [|reflexivity].
  rewrite (messages_len_spec x E). reflexivity.
Qed.

Lemma hasEmptyLegacyHistory_falsy (x : Dict) :
  hasEmptyLegacyHistory x = true ->
  truthy (dict_get x "chat_history" (VBool false)) = false.
Proof.
  unfold hasEmptyLegacyHistory, dict_get.
  destruct (x !! "chat_history") as [v|]; simpl; [|reflexivity].
  destruct v as [| | |s|l|l| |]; try discriminate.
  - destruct s; [reflexivity|discriminate].
  - destruct l; [reflexivity|discriminate].
  - destruct l; [reflexivity|discriminate].
Qed.

Lemma hasNonEmptyLegacyHistory_truthy (x : Dict) :
  hasNonEmptyLegacyHistory x = true ->
  truthy (dict_get x "chat_history" (VBool false)) = true.
Proof.
  unfold hasNonEmptyLegacyHistory, dict_get.
  destruct (x !! "chat_history") as [v|]; simpl; [|discriminate].
  destruct v as [| | |s|l|l| |]; try discriminate.
  - simpl. auto.
  - destruct l; [discriminate|reflexivity].
  - destruct l; [discriminate|reflexivity].
Qed.

Lemma py_in_In (k : string) (l : list string) :
  py_in k l = true <-> In k l.
Proof.
  unfold py_in. rewrite existsb_exists. split.
  - intros (y & Hy & ->%String.eqb_eq). exact Hy.
  - intros H. exists k. split; [exact H|apply String.eqb_refl].
Qed.

(** ** The chain, branch by branch *)

Section Routing.

Context {W PromptValue LLMOut Doc : Type}.
Variable StrOutputParser : @Collaborator W LLMOut string.
Variable llm : @LanguageModelLike W PromptValue LLMOut.
Variable retriever : @RetrieverLike W Doc.
Variable prompt : @BasePromptTemplate W PromptValue.

Let router : Runnable Dict (list Doc) :=
  retrieve_documents StrOutputParser llm retriever prompt.

(** The sequence [prompt | llm | StrOutputParser() | retriever] of the
    source is the rewrite pipeline of the spec. *)
Lemma rewrite_sequence_spec (x : Dict) (w : W) :
  pipe (pipe (pipe (runnable_of CallPrompt (prompt_invoke prompt))
                (runnable_of CallLLM llm))
          (runnable_of CallParser StrOutputParser))
    (runnable_of (fun s => CallRetriever (VStr s))
       (fun s => retriever (VStr s))) x w
  = query_rewrite_pipeline StrOutputParser llm retriever prompt x w.
Proof.
  unfold pipe, m_bind, runnable_of, query_rewrite_pipeline.
  destruct (prompt_invoke prompt x w) as [[e|p] w1]; simpl; [reflexivity|].
  destruct (llm p w1) as [[e|o] w2]; simpl; [reflexivity|].
  destruct (StrOutputParser o w2) as [[e|s] w3]; simpl; [reflexivity|].
  destruct (retriever (VStr s) w3) as [r w4]; reflexivity.
Qed.

(** A lambda of the source piped into the retriever is the passthrough
    adapter of the spec. *)
Lemma passthrough_sequence_spec (text : Dict -> Py PyVal) (x : Dict) (w : W) :
  pipe (PromptValue := PromptValue) (LLMOut := LLMOut)
    (RunnableLambda CallPassthrough text)
    (runnable_of CallRetriever retriever) x w
  = passthrough retriever text x w.
Proof.
  unfold pipe, m_bind, RunnableLambda, runnable_of, passthrough.
  destruct (text x) as [e|q]; simpl; [reflexivity|].
  destruct (retriever q w) as [r w']; reflexivity.
Qed.

(** The decision table: what an invocation is, by the values of the three
    conditions. *)
Lemma invoke_cases (x : Dict) (w : W) :
  invoke router x w =
    if hasMultiTurnMessages x then
      after [EvCondition 1 (ok true); EvBranch 1]
        (query_rewrite_pipeline StrOutputParser llm retriever prompt x w)
    else if hasSingleTurnMessages x then
      after [EvCondition 1 (ok false); EvCondition 2 (ok true); EvBranch 2]
        (passthrough retriever messages_last_content x w)
    else if negb (truthy (dict_get x "chat_history" (VBool false))) then
      after [EvCondition 1 (ok false); EvCondition 2 (ok false);
             EvCondition 3 (ok true); EvBranch 3]
        (passthrough retriever input_text x w)
    else
      after [EvCondition 1 (ok false); EvCondition 2 (ok false);
             EvCondition 3 (ok false); EvDefault]
        (query_rewrite_pipeline StrOutputParser llm retriever prompt x w).
Proof.
  unfold router, invoke, retrieve_documents, with_config, RunnableBranch.
  cbn [branch_from]. unfold m_bind at 1.
  rewrite condition_1_spec.
  destruct (hasMultiTurnMessages x); cbn [ok].
  - unfold m_bind at 1, emit. rewrite rewrite_sequence_spec.
    destruct (query_rewrite_pipeline _ _ _ _ x w) as [[r w'] t]. reflexivity.
  - unfold m_bind at 1. rewrite condition_2_spec.
    destruct (hasSingleTurnMessages x); cbn [ok].
    + unfold m_bind at 1, emit. rewrite passthrough_sequence_spec.
      destruct (passthrough _ _ x w) as [[r w'] t]. reflexivity.
    + unfold m_bind at 1. unfold condition_3.
      destruct (negb (truthy _)); cbn [ok].
      * unfold m_bind at 1, emit. rewrite passthrough_sequence_spec.
        destruct (passthrough _ _ x w) as [[r w'] t]. reflexivity.
      * unfold m_bind at 1, emit. rewrite rewrite_sequence_spec.
        destruct (query_rewrite_pipeline _ _ _ _ x w) as [[r w'] t].
        reflexivity.
Qed.

(** *** Traces of the two kinds of action *)

Lemma rewrite_pipeline_quiet (x : Dict) (w : W) :
  let t := trace (query_rewrite_pipeline StrOutputParser llm retriever prompt x w) in
  started t = [] /\ conditions t = [] /\ calls is_passthrough t = 0.
Proof.
  unfold query_rewrite_pipeline, trace.
  destruct (prompt_invoke prompt x w) as [[e|p] w1]; [easy|].
  destruct (llm p w1) as [[e|o] w2]; [easy|].
  destruct (StrOutputParser o w2) as [[e|s] w3]; [easy|].
  destruct (retriever (VStr s) w3) as [r w4]; easy.
Qed.

Lemma passthrough_quiet (text : Dict -> Py PyVal) (x : Dict) (w : W) :
  let t := trace (passthrough (PromptValue := PromptValue) (LLMOut := LLMOut)
                    retriever text x w) in
  started t = [] /\ conditions t = [] /\ calls is_rewrite t = 0.
Proof.
  unfold passthrough, trace.
  destruct (text x) as [e|q]; [easy|].
  destruct (retriever q w) as [r w']; easy.
Qed.

Lemma after_outcome {A} (pre : list (@Event PromptValue LLMOut))
    (run : Py A * W * list (@Event PromptValue LLMOut)) :
  outcome (after pre run) = outcome run
  /\ final_world (after pre run) = final_world run
  /\ trace (after pre run) = pre ++ trace run.
Proof. destruct run as [[r w] t]. easy. Qed.

(** *** Failures, retries and what is returned *)

Ltac trace_cases :=
  repeat match goal with
    | H : _ \/ _ |- _ => destruct H as [H|H]
    | H : False |- _ => destruct H
    | H : EvInvoke _ _ = EvInvoke _ _ |- _ => inversion H; clear H; subst
    | H : inl _ = inl _ |- _ => inversion H; clear H; subst
    | H : inr _ = inr _ |- _ => inversion H; clear H; subst
    | H : inl _ = inr _ |- _ => discriminate H
    | H : inr _ = inl _ |- _ => discriminate H
    end.

Ltac pick_event := first [left; reflexivity | right; pick_event].

Ltac trace_done :=
  first
    [ reflexivity
    | solve [eauto]
    | solve [eexists; reflexivity]
    | solve [eexists; split; [|pick_event]; reflexivity]
    | solve [right; eexists; split; [|pick_event]; reflexivity] ].

Lemma rewrite_pipeline_surfaces (x : Dict) (w : W) :
  let run := query_rewrite_pipeline StrOutputParser llm retriever prompt x w in
  surfaces_failures run /\ no_retry (trace run)
  /\ returns_retrieved retriever run
  /\ (forall e, outcome run = inl e -> raised_by_collaborator e run).
Proof.
  unfold query_rewrite_pipeline, surfaces_failures, no_retry,
    returns_retrieved, raised_by_collaborator, outcome, final_world, trace, calls.
  destruct (prompt_invoke prompt x w) as [[e|p] w1].
  { cbn. repeat split; try lia; intros; trace_cases; trace_done. }
  destruct (llm p w1) as [[e|o] w2].
  { cbn. repeat split; try lia; intros; trace_cases; trace_done. }
  destruct (StrOutputParser o w2) as [[e|s] w3].
  { cbn. repeat split; try lia; intros; trace_cases; trace_done. }
  destruct (retriever (VStr s) w3) as [[e|docs] w4] eqn:Hr.
  - cbn. repeat split; try lia; intros; trace_cases; trace_done.
  - cbn. repeat split; try lia; intros; trace_cases; trace_done.
Qed.

Lemma passthrough_surfaces (text : Dict -> Py PyVal) (x : Dict) (w : W) :
  let run := passthrough (PromptValue := PromptValue) (LLMOut := LLMOut)
               retriever text x w in
  surfaces_failures run /\ no_retry (trace run)
  /\ returns_retrieved retriever run
  /\ (forall e, outcome run = inl e ->
        text x = inl e \/ raised_by_collaborator e run).
Proof.
  unfold passthrough, surfaces_failures, no_retry,
    returns_retrieved, raised_by_collaborator, outcome, final_world, trace, calls.
  destruct (text x) as [e|q].
  { cbn. repeat split; try lia; intros; trace_cases; trace_done. }
  destruct (retriever q w) as [[e|docs] w'] eqn:Hr.
  - cbn. repeat split; try lia; intros; trace_cases; trace_done.
  - cbn. repeat split; try lia; intros; trace_cases; trace_done.
Qed.

Lemma calls_dispatch (p : @Event PromptValue LLMOut -> bool)
    (pre t : list Event) :
  (forall ev, p ev = true -> is_dispatch ev = false) ->
  forallb is_dispatch pre = true ->
  calls p (pre ++ t) = calls p t.
Proof.
  intros Hp. unfold calls. induction pre as [|ev pre IH]; [reflexivity|].
  cbn [forallb app List.filter]. intros [Hev Hpre]%andb_prop.
  destruct (p ev) eqn:E; [apply Hp in E; congruence|]. auto.
Qed.

Lemma last_after_dispatch (pre t : list (@Event PromptValue LLMOut)) :
  t <> [] -> last (pre ++ t) = last t.
Proof.
  destruct t as [|ev t]; [congruence|]. intros _.
  revert ev. induction t as [|ev' t IH] using rev_ind; intros ev.
  - apply last_snoc.
  - rewrite app_comm_cons, app_assoc, !last_snoc. reflexivity.
Qed.

Lemma after_dispatch_surfaces {A} (pre : list Event)
    (run : Py A * W * list (@Event PromptValue LLMOut)) :
  forallb is_dispatch pre = true ->
  trace run <> [] ->
  surfaces_failures run -> surfaces_failures (after pre run).
Proof.
  intros Hpre Hne [H1 H2].
  destruct (after_outcome pre run) as (Ho & _ & Ht).
  unfold surfaces_failures.
  rewrite Ho, Ht, (last_after_dispatch pre _ Hne). split; [|exact H2].
  intros c e [Hin|Hin]%in_app_or; [|auto].
  exfalso. rewrite forallb_forall in Hpre. apply Hpre in Hin. discriminate.
Qed.

Lemma started_app (t1 t2 : list (@Event PromptValue LLMOut)) :
  started (t1 ++ t2) = started t1 ++ started t2.
Proof.
  induction t1 as [|ev t1 IH]; [reflexivity|].
  destruct ev; cbn [app started]; rewrite IH; reflexivity.
Qed.

Lemma conditions_app (t1 t2 : list (@Event PromptValue LLMOut)) :
  conditions (t1 ++ t2) = conditions t1 ++ conditions t2.
Proof.
  induction t1 as [|ev t1 IH]; [reflexivity|].
  destruct ev; cbn [app conditions]; rewrite IH; reflexivity.
Qed.

Lemma after_dispatch_no_retry {A} (pre : list Event)
    (run : Py A * W * list (@Event PromptValue LLMOut)) :
  forallb is_dispatch pre = true ->
  no_retry (trace run) -> no_retry (trace (after pre run)).
Proof.
  intros Hpre. destruct (after_outcome pre run) as (_ & _ & ->).
  unfold no_retry.
  rewrite !calls_dispatch; auto; intros [] ?; try discriminate; reflexivity.
Qed.

Lemma after_dispatch_returns (pre : list Event)
    (run : Py (list Doc) * W * list (@Event PromptValue LLMOut)) :
  trace run <> [] ->
  returns_retrieved retriever run -> returns_retrieved retriever (after pre run).
Proof.
  intros Hne H. destruct (after_outcome pre run) as (Ho & Hw & Ht).
  unfold returns_retrieved.
  rewrite Ho, Hw, Ht, (last_after_dispatch pre _ Hne). exact H.
Qed.

Lemma after_raised_by_collaborator {A} (e : Exn) (pre : list Event)
    (run : Py A * W * list (@Event PromptValue LLMOut)) :
  raised_by_collaborator e run -> raised_by_collaborator e (after pre run).
Proof.
  intros (c & Hc & Hin). exists c. split; [exact Hc|].
  destruct (after_outcome pre run) as (_ & _ & ->).
  apply in_or_app. right. exact Hin.
Qed.

Lemma rewrite_pipeline_trace_nonempty (x : Dict) (w : W) :
  trace (query_rewrite_pipeline StrOutputParser llm retriever prompt x w) <> [].
Proof.
  unfold query_rewrite_pipeline, trace.
  destruct (prompt_invoke prompt x w) as [[e|p] w1]; [easy|].
  destruct (llm p w1) as [[e|o] w2]; [easy|].
  destruct (StrOutputParser o w2) as [[e|s] w3]; [easy|].
  destruct (retriever (VStr s) w3) as [r w4]; easy.
Qed.

Lemma passthrough_trace_nonempty (text : Dict -> Py PyVal) (x : Dict) (w : W) :
  trace (passthrough (PromptValue := PromptValue) (LLMOut := LLMOut)
           retriever text x w) <> [].
Proof.
  unfold passthrough, trace.
  destruct (text x) as [e|q]; [easy|].
  destruct (retriever q w) as [r w']; easy.
Qed.

(** The lambda of the second branch cannot raise where its condition holds,
    and the lambda of the third raises nothing but the lookup error. *)
Lemma messages_last_content_total (x : Dict) :
  hasSingleTurnMessages x = true -> exists c, messages_last_content x = ok c.
Proof.
  unfold hasSingleTurnMessages, isMessageList, messages_length,
    messages_last_content, dict_getitem.
  destruct (x !! "messages") as [v|]; [|discriminate].
  destruct v as [| | | |l| | |]; try discriminate.
  destruct l as [|m l]; [discriminate|].
  destruct l as [|m' l]; [|intros [_ H]%andb_prop; discriminate].
  destruct m; try discriminate. intros _. eexists. reflexivity.
Qed.

Lemma input_text_raises (x : Dict) (e : Exn) :
  input_text x = inl e -> e = KeyError (VStr "input").
Proof.
  unfold input_text, dict_getitem.
  destruct (x !! "input"); [discriminate|]. intros [= <-]. reflexivity.
Qed.

Lemma after_dispatch_run (pre : list Event)
    (run : Py (list Doc) * W * list (@Event PromptValue LLMOut)) :
  forallb is_dispatch pre = true ->
  trace run <> [] ->
  started (trace run) = [] ->
  surfaces_failures run /\ no_retry (trace run)
  /\ returns_retrieved retriever run ->
  started (trace (after pre run)) = started pre
  /\ surfaces_failures (after pre run) /\ no_retry (trace (after pre run))
  /\ returns_retrieved retriever (after pre run).
Proof.
  intros Hpre Hne Hs (H1 & H2 & H3).
  split; [|split; [|split]].
  - destruct (after_outcome pre run) as (_ & _ & ->).
    rewrite started_app, Hs. apply app_nil_r.
  - apply after_dispatch_surfaces; assumption.
  - apply after_dispatch_no_retry; assumption.
  - apply after_dispatch_returns; assumption.
Qed.

Lemma after_raises {A} (e : Exn) (pre : list Event)
    (run : Py A * W * list (@Event PromptValue LLMOut)) (P : Prop) :
  (outcome run = inl e -> P \/ raised_by_collaborator e run) ->
  outcome (after pre run) = inl e ->
  P \/ raised_by_collaborator e (after pre run).
Proof.
  destruct (after_outcome pre run) as (-> & _ & _).
  intros H He. destruct (H He) as [HP|Hc]; [left; exact HP|right].
  apply after_raised_by_collaborator, Hc.
Qed.

(** Every invocation starts exactly one action, surfaces failures, retries
    nothing and returns what the retriever returned. *)
Lemma invoke_run (x : Dict) (w : W) :
  let run := invoke router x w in
  started (trace run) =
    [ if hasMultiTurnMessages x then Branch 1
      else if hasSingleTurnMessages x then Branch 2
      else if negb (truthy (dict_get x "chat_history" (VBool false)))
      then Branch 3 else Default ]
  /\ surfaces_failures run /\ no_retry (trace run)
  /\ returns_retrieved retriever run.
Proof.
  cbv zeta. rewrite invoke_cases.
  pose proof (rewrite_pipeline_surfaces x w) as (R1 & R2 & R3 & _).
  pose proof (rewrite_pipeline_quiet x w) as (R5 & _ & _).
  pose proof (rewrite_pipeline_trace_nonempty x w) as R6.
  pose proof (passthrough_surfaces messages_last_content x w)
    as (M1 & M2 & M3 & _).
  pose proof (passthrough_quiet messages_last_content x w) as (M5 & _ & _).
  pose proof (passthrough_trace_nonempty messages_last_content x w) as M6.
  pose proof (passthrough_surfaces input_text x w) as (I1 & I2 & I3 & _).
  pose proof (passthrough_quiet input_text x w) as (I5 & _ & _).
  pose proof (passthrough_trace_nonempty input_text x w) as I6.
  destruct (hasMultiTurnMessages x);
    [|destruct (hasSingleTurnMessages x);
      [|destruct (negb (truthy (dict_get x "chat_history" (VBool false))))]];
    apply after_dispatch_run; auto.
Qed.

Lemma invoke_raises (x : Dict) (w : W) (e : Exn) :
  outcome (invoke router x w) = inl e ->
  e = KeyError (VStr "input") \/ raised_by_collaborator e (invoke router x w).
Proof.
  rewrite invoke_cases.
  pose proof (rewrite_pipeline_surfaces x w) as (_ & _ & _ & R4).
  pose proof (passthrough_surfaces messages_last_content x w)
    as (_ & _ & _ & M4).
  pose proof (passthrough_surfaces input_text x w) as (_ & _ & _ & I4).
  destruct (hasMultiTurnMessages x);
    [|destruct (hasSingleTurnMessages x) eqn:E2;
      [|destruct (negb (truthy (dict_get x "chat_history" (VBool false))))]];
    apply after_raises; intros He.
  - right. auto.
  - destruct (M4 e He) as [Ht|Hc]; [|right; exact Hc].
    destruct (messages_last_content_total x E2) as [c Hc].
    rewrite Hc in Ht. discriminate.
  - destruct (I4 e He) as [Ht|Hc]; [|right; exact Hc].
    left. apply (input_text_raises x e Ht).
  - right. auto.
Qed.

(** *** Deterministic collaborators *)

Lemma rewrite_pipeline_deterministic (x : Dict) (w1 w2 : W) :
  deterministic (prompt_invoke prompt) -> deterministic llm ->
  deterministic StrOutputParser -> deterministic retriever ->
  outcome (query_rewrite_pipeline StrOutputParser llm retriever prompt x w1)
  = outcome (query_rewrite_pipeline StrOutputParser llm retriever prompt x w2)
  /\ trace (query_rewrite_pipeline StrOutputParser llm retriever prompt x w1)
     = trace (query_rewrite_pipeline StrOutputParser llm retriever prompt x w2).
Proof.
  intros Dp Dl Ds Dr. unfold query_rewrite_pipeline, outcome, trace.
  specialize (Dp x w1 w2).
  destruct (prompt_invoke prompt x w1) as [[e|p] u1],
    (prompt_invoke prompt x w2) as [[e'|p'] u2];
    cbn in Dp; try discriminate Dp; injection Dp as <-; [easy|].
  specialize (Dl p u1 u2).
  destruct (llm p u1) as [[e|o] v1], (llm p u2) as [[e'|o'] v2];
    cbn in Dl; try discriminate Dl; injection Dl as <-; [easy|].
  specialize (Ds o v1 v2).
  destruct (StrOutputParser o v1) as [[e|s] z1],
    (StrOutputParser o v2) as [[e'|s'] z2];
    cbn in Ds; try discriminate Ds; injection Ds as <-; [easy|].
  specialize (Dr (VStr s) z1 z2).
  destruct (retriever (VStr s) z1) as [r1 y1],
    (retriever (VStr s) z2) as [r2 y2].
  cbn in Dr. subst r2. easy.
Qed.

Lemma passthrough_deterministic (text : Dict -> Py PyVal) (x : Dict)
    (w1 w2 : W) :
  deterministic retriever ->
  outcome (passthrough (PromptValue := PromptValue) (LLMOut := LLMOut)
             retriever text x w1)
  = outcome (passthrough (PromptValue := PromptValue) (LLMOut := LLMOut)
               retriever text x w2)
  /\ trace (passthrough (PromptValue := PromptValue) (LLMOut := LLMOut)
              retriever text x w1)
     = trace (passthrough (PromptValue := PromptValue) (LLMOut := LLMOut)
                retriever text x w2).
Proof.
  intros Dr. unfold passthrough, outcome, trace.
  destruct (text x) as [e|q]; [easy|].
  specialize (Dr q w1 w2).
  destruct (retriever q w1) as [r1 y1], (retriever q w2) as [r2 y2].
  cbn in Dr. subst r2. easy.
Qed.

Lemma after_deterministic {A} (pre : list Event)
    (run1 run2 : Py A * W * list (@Event PromptValue LLMOut)) :
  outcome run1 = outcome run2 /\ trace run1 = trace run2 ->
  outcome (after pre run1) = outcome (after pre run2)
  /\ trace (after pre run1) = trace (after pre run2).
Proof.
  destruct run1 as [[r1 u1] t1], run2 as [[r2 u2] t2].
  cbn. intros [-> ->]. easy.
Qed.

(** ** The claims *)

(** C1: a [messages] list of more than one element, all of them messages,
    takes the first branch: the run is the rewrite pipeline (prompt, model,
    text extraction, retriever) on the whole turn, and no passthrough
    lambda is invoked. *)
Theorem multi_turn_messages_run_rewrite_pipeline
    (x : Dict) (ms : list PyVal) (w : W) :
  x !! "messages" = Some (VList ms) ->
  1 < length ms ->
  forallb isinstance_BaseMessage ms = true ->
  invoke router x w =
    after [EvCondition 1 (ok true); EvBranch 1]
      (query_rewrite_pipeline StrOutputParser llm retriever prompt x w)
  /\ calls is_passthrough (trace (invoke router x w)) = 0.
Proof.
  intros Hm Hlen Hall.
  assert (Hc : hasMultiTurnMessages x = true).
  { unfold hasMultiTurnMessages, isMessageList, messages_length. rewrite Hm.
    destruct ms as [|m ms']; [simpl in Hlen; lia|].
    rewrite Hall. simpl. apply Nat.ltb_lt. simpl in Hlen. lia. }
  rewrite invoke_cases, Hc. split; [reflexivity|].
  destruct (after_outcome [EvCondition 1 (ok true); EvBranch 1]
    (query_rewrite_pipeline StrOutputParser llm retriever prompt x w))
    as (_ & _ & ->).
  destruct (rewrite_pipeline_quiet x w) as (_ & _ & H). exact H.
Qed.

(** C2: a [messages] list of exactly one message takes the second branch:
    the retriever receives that message's content as it is, in the world
    the invocation started in, and neither the prompt, the model nor the
    parser is invoked. *)
Theorem single_message_content_passthrough
    (x : Dict) (role : string) (content : PyVal) (w : W) :
  x !! "messages" = Some (VList [VMsg role content]) ->
  invoke router x w =
    (let '(r, w') := retriever content w in
     (r, w',
      [EvCondition 1 (ok false); EvCondition 2 (ok true); EvBranch 2;
       EvInvoke (CallPassthrough x) None;
       EvInvoke (CallRetriever content) (raised r)]))
  /\ calls is_rewrite (trace (invoke router x w)) = 0
  /\ search_queries (trace (invoke router x w)) = [content].
Proof.
  intros Hm.
  assert (H1 : hasMultiTurnMessages x = false).
  { unfold hasMultiTurnMessages, isMessageList, messages_length.
    rewrite Hm. reflexivity. }
  assert (H2 : hasSingleTurnMessages x = true).
  { unfold hasSingleTurnMessages, isMessageList, messages_length.
    rewrite Hm. reflexivity. }
  rewrite invoke_cases, H1, H2.
  unfold passthrough, messages_last_content, dict_getitem. rewrite Hm.
  cbn [py_bind ok py_last rev app py_content].
  destruct (retriever content w) as [r w']. easy.
Qed.

(** C3: with no message list and a [chat_history] that is absent, an empty
    string or an empty sequence, the third branch runs: the retriever
    receives the value of [input] as it is, and neither the prompt, the
    model nor the parser is invoked. *)
Theorem empty_legacy_history_input_passthrough
    (x : Dict) (q : PyVal) (w : W) :
  isMessageList x = false ->
  hasEmptyLegacyHistory x = true ->
  x !! "input" = Some q ->
  invoke router x w =
    (let '(r, w') := retriever q w in
     (r, w',
      [EvCondition 1 (ok false); EvCondition 2 (ok false);
       EvCondition 3 (ok true); EvBranch 3;
       EvInvoke (CallPassthrough x) None;
       EvInvoke (CallRetriever q) (raised r)]))
  /\ calls is_rewrite (trace (invoke router x w)) = 0
  /\ search_queries (trace (invoke router x w)) = [q].
Proof.
  intros Hm Hh Hi.
  rewrite invoke_cases. unfold hasMultiTurnMessages, hasSingleTurnMessages.
  rewrite Hm, (hasEmptyLegacyHistory_falsy x Hh).
  cbn [andb negb]. unfold passthrough, input_text, dict_getitem. rewrite Hi.
  cbn [ok]. destruct (retriever q w) as [r w']. easy.
Qed.

(** C4: with no message list and a [chat_history] that has something in it,
    no condition holds and the default runs: the rewrite pipeline on the
    whole turn ([input] and [chat_history] with it), whose string goes to
    the retriever; no passthrough lambda is invoked. *)
Theorem nonempty_legacy_history_run_rewrite_pipeline (x : Dict) (w : W) :
  isMessageList x = false ->
  hasNonEmptyLegacyHistory x = true ->
  invoke router x w =
    after [EvCondition 1 (ok false); EvCondition 2 (ok false);
           EvCondition 3 (ok false); EvDefault]
      (query_rewrite_pipeline StrOutputParser llm retriever prompt x w)
  /\ calls is_passthrough (trace (invoke router x w)) = 0.
Proof.
  intros Hm Hh.
  rewrite invoke_cases. unfold hasMultiTurnMessages, hasSingleTurnMessages.
  rewrite Hm, (hasNonEmptyLegacyHistory_truthy x Hh).
  cbn [andb negb]. split; [reflexivity|].
  match goal with |- context [after ?pre ?run] =>
    destruct (after_outcome pre run) as (_ & _ & ->) end.
  destruct (rewrite_pipeline_quiet x w) as (_ & _ & H). exact H.
Qed.

(** C5: construction raises exactly when the prompt declares neither
    [input] nor [messages], and what it raises is the [ValueError] of the
    source; when one of the two is declared the chain is returned, and an
    exception of an invocation of that chain is then the lookup error of a
    missing [input] or was raised by a collaborator the run invoked: the
    check of the prompt variables is not made again. *)
Theorem construction_fails_iff_no_input_or_messages :
  let built :=
    create_history_aware_retriever StrOutputParser llm retriever prompt in
  let vars := input_variables prompt in
  ((exists e, built = inl e) <-> ~ In "input" vars /\ ~ In "messages" vars)
  /\ (forall e, built = inl e ->
        e = ValueError
              "Expected either `input` or `messages` to be prompt variables, but got "
              vars)
  /\ (In "input" vars \/ In "messages" vars -> built = ok router)
  /\ (forall chain x w e,
        built = ok chain ->
        outcome (invoke chain x w) = inl e ->
        e = KeyError (VStr "input")
        \/ raised_by_collaborator e (invoke chain x w)).
Proof.
  cbv zeta. unfold create_history_aware_retriever.
  pose proof (py_in_In "input" (input_variables prompt)) as Hi.
  pose proof (py_in_In "messages" (input_variables prompt)) as Hm.
  destruct (py_in "input" (input_variables prompt)),
    (py_in "messages" (input_variables prompt)); cbn [negb andb].
  4: { split; [split|split; [|split]].
       - intros _. split; intros H; [apply Hi in H|apply Hm in H];
           discriminate H.
       - intros _. eexists. reflexivity.
       - intros e [= <-]. reflexivity.
       - intros [H|H]; [apply Hi in H|apply Hm in H]; discriminate H.
       - intros chain x w e He. discriminate He. }
  all: split; [split|split; [|split]].
  all: try (intros [e He]; discriminate He).
  all: try (intros e He; discriminate He).
  all: try (intros _; reflexivity).
  all: try (intros chain x w e [= <-]; apply invoke_raises).
  all: intros [H1 H2]; exfalso;
    first [apply H1, Hi; reflexivity | apply H2, Hm; reflexivity].
Qed.

(** C6: when [messages] is an empty list, is not a list, or is a list
    with an element that is not a message, the classifier and the two
    conditions built on it return [False] without raising, and the
    invocation goes on to the third condition: the action started is the
    third branch or the default. *)
Theorem malformed_messages_fall_through (x : Dict) (v : PyVal) (w : W) :
  x !! "messages" = Some v ->
  (v = VList [] \/ isinstance_list v = false
   \/ exists l, v = VList l /\ forallb isinstance_BaseMessage l = false) ->
  messages_param_is_message_list x = ok false
  /\ condition_1 x = ok false
  /\ condition_2 x = ok false
  /\ exists b : bool,
       conditions (trace (invoke router x w))
         = [(1, ok false); (2, ok false); (3, ok b)]
       /\ started (trace (invoke router x w))
          = [if b then Branch 3 else Default].
Proof.
  intros Hv Hbad.
  assert (Hm : isMessageList x = false).
  { unfold isMessageList. rewrite Hv.
    destruct Hbad as [->|[Hl|(l & -> & Hl)]]; [reflexivity| |].
    - destruct v; try reflexivity; discriminate Hl.
    - destruct l; [reflexivity|exact Hl]. }
  rewrite messages_param_is_message_list_spec, condition_1_spec,
    condition_2_spec.
  unfold hasMultiTurnMessages, hasSingleTurnMessages. rewrite Hm.
  repeat (split; [reflexivity|]).
  exists (negb (truthy (dict_get x "chat_history" (VBool false)))).
  rewrite invoke_cases. unfold hasMultiTurnMessages, hasSingleTurnMessages.
  rewrite Hm. cbn [andb].
  destruct (negb (truthy (dict_get x "chat_history" (VBool false)))).
  - destruct (after_outcome
      [EvCondition 1 (ok false); EvCondition 2 (ok false);
       EvCondition 3 (ok true); EvBranch 3]
      (passthrough (PromptValue := PromptValue) (LLMOut := LLMOut)
         retriever input_text x w)) as (_ & _ & ->).
    rewrite conditions_app, started_app.
    destruct (passthrough_quiet input_text x w) as (-> & -> & _).
    split; reflexivity.
  - destruct (after_outcome
      [EvCondition 1 (ok false); EvCondition 2 (ok false);
       EvCondition 3 (ok false); EvDefault]
      (query_rewrite_pipeline StrOutputParser llm retriever prompt x w))
      as (_ & _ & ->).
    rewrite conditions_app, started_app.
    destruct (rewrite_pipeline_quiet x w) as (-> & -> & _).
    split; reflexivity.
Qed.

(** C7: an invocation starts exactly one action.  The conditions are
    evaluated in the order 1, 2, 3 and evaluation stops at the first that
    holds; the run is then the dispatch followed by the action of that
    branch alone: the rewrite pipeline for the first, the passthrough of
    the message content for the second, the passthrough of [input] for the
    third, and the rewrite pipeline again as the default when none holds. *)
Theorem exactly_one_branch_action (x : Dict) (w : W) :
  let run := invoke router x w in
  length (started (trace run)) = 1
  /\ ((condition_1 x = ok true
       /\ conditions (trace run) = [(1, ok true)]
       /\ started (trace run) = [Branch 1]
       /\ run = after [EvCondition 1 (ok true); EvBranch 1]
                  (query_rewrite_pipeline StrOutputParser llm retriever
                     prompt x w))
      \/ (condition_1 x = ok false /\ condition_2 x = ok true
          /\ conditions (trace run) = [(1, ok false); (2, ok true)]
          /\ started (trace run) = [Branch 2]
          /\ run = after [EvCondition 1 (ok false); EvCondition 2 (ok true);
                          EvBranch 2]
                     (passthrough retriever messages_last_content x w))
      \/ (condition_1 x = ok false /\ condition_2 x = ok false
          /\ condition_3 x = ok true
          /\ conditions (trace run)
             = [(1, ok false); (2, ok false); (3, ok true)]
          /\ started (trace run) = [Branch 3]
          /\ run = after [EvCondition 1 (ok false); EvCondition 2 (ok false);
                          EvCondition 3 (ok true); EvBranch 3]
                     (passthrough retriever input_text x w))
      \/ (condition_1 x = ok false /\ condition_2 x = ok false
          /\ condition_3 x = ok false
          /\ conditions (trace run)
             = [(1, ok false); (2, ok false); (3, ok false)]
          /\ started (trace run) = [Default]
          /\ run = after [EvCondition 1 (ok false); EvCondition 2 (ok false);
                          EvCondition 3 (ok false); EvDefault]
                     (query_rewrite_pipeline StrOutputParser llm retriever
                        prompt x w))).
Proof.
  cbv zeta.
  destruct (invoke_run x w) as (Hs & _). cbv zeta in Hs.
  split; [rewrite Hs; reflexivity|].
  rewrite Hs. rewrite invoke_cases.
  rewrite condition_1_spec, condition_2_spec. unfold condition_3.
  pose proof (rewrite_pipeline_quiet x w) as (_ & R & _).
  pose proof (passthrough_quiet messages_last_content x w) as (_ & M & _).
  pose proof (passthrough_quiet input_text x w) as (_ & I & _).
  destruct (hasMultiTurnMessages x);
    [|destruct (hasSingleTurnMessages x);
      [|destruct (negb (truthy (dict_get x "chat_history" (VBool false))))]].
  - left. repeat (split; [reflexivity|]). split; [|split; reflexivity].
    match goal with |- context [after ?pre ?run] =>
      destruct (after_outcome pre run) as (_ & _ & ->) end.
    rewrite conditions_app, R. reflexivity.
  - right; left. repeat (split; [reflexivity|]). split; [|split; reflexivity].
    match goal with |- context [after ?pre ?run] =>
      destruct (after_outcome pre run) as (_ & _ & ->) end.
    rewrite conditions_app, M. reflexivity.
  - right; right; left. repeat (split; [reflexivity|]).
    split; [|split; reflexivity].
    match goal with |- context [after ?pre ?run] =>
      destruct (after_outcome pre run) as (_ & _ & ->) end.
    rewrite conditions_app, I. reflexivity.
  - right; right; right. repeat (split; [reflexivity|]).
    split; [|split; reflexivity].
    match goal with |- context [after ?pre ?run] =>
      destruct (after_outcome pre run) as (_ & _ & ->) end.
    rewrite conditions_app, R. reflexivity.
Qed.

(** C8: when what each collaborator returns or raises does not depend on
    the world it runs in, two invocations on the same turn, from any two
    worlds, start the same branch, send the same search query to the
    retriever, have the same trace and the same outcome (the same
    documents or the same exception). *)
Theorem routing_deterministic (x : Dict) (w1 w2 : W) :
  deterministic (prompt_invoke prompt) ->
  deterministic llm ->
  deterministic StrOutputParser ->
  deterministic retriever ->
  started (trace (invoke router x w1)) = started (trace (invoke router x w2))
  /\ search_queries (trace (invoke router x w1))
     = search_queries (trace (invoke router x w2))
  /\ trace (invoke router x w1) = trace (invoke router x w2)
  /\ outcome (invoke router x w1) = outcome (invoke router x w2).
Proof.
  intros Dp Dl Ds Dr.
  assert (H : outcome (invoke router x w1) = outcome (invoke router x w2)
              /\ trace (invoke router x w1) = trace (invoke router x w2)).
  { rewrite !invoke_cases.
    destruct (hasMultiTurnMessages x);
      [|destruct (hasSingleTurnMessages x);
        [|destruct (negb (truthy (dict_get x "chat_history" (VBool false))))]];
      apply after_deterministic;
      first [apply rewrite_pipeline_deterministic; assumption
            |apply passthrough_deterministic; assumption]. }
  destruct H as [Ho Ht]. rewrite Ht, Ho. repeat split; reflexivity.
Qed.

(** C9: as the code has it, every invocation starts one action and
    invokes no collaborator twice, and its outcome is the outcome of the
    collaborators it reaches.  On a rewriting branch the prompt runs on
    the turn in the starting world, the model on what the prompt returned,
    the parser on what the model returned; the first of them to raise ends
    the invocation, with its exception as the outcome, its world as the
    final world and no query sent; when the three return, the retriever
    runs on the parser's string and what it returns or raises is the
    outcome, unchanged.  On a passthrough branch whose lambda returns, the
    retriever runs on that text in the starting world and what it returns
    or raises is the outcome.  On the third branch with no [input] key the
    lambda raises the lookup error before any collaborator is reached:
    there, that every collaborator would succeed gives no documents. *)
Theorem invocation_outcome_is_collaborator_outcome (x : Dict) (w : W) :
  let run := invoke router x w in
  let t := trace run in
  length (started t) = 1
  /\ no_retry t
  /\ surfaces_failures run
  /\ (condition_1 x = ok true
      \/ (condition_1 x = ok false /\ condition_2 x = ok false
          /\ condition_3 x = ok false) ->
      match prompt_invoke prompt x w with
      | (inl e, w1) =>
          outcome run = inl e /\ final_world run = w1
          /\ search_queries t = []
      | (inr p, w1) =>
          match llm p w1 with
          | (inl e, w2) =>
              outcome run = inl e /\ final_world run = w2
              /\ search_queries t = []
          | (inr o, w2) =>
              match StrOutputParser o w2 with
              | (inl e, w3) =>
                  outcome run = inl e /\ final_world run = w3
                  /\ search_queries t = []
              | (inr s, w3) =>
                  outcome run = fst (retriever (VStr s) w3)
                  /\ final_world run = snd (retriever (VStr s) w3)
                  /\ search_queries t = [VStr s]
              end
          end
      end)
  /\ (forall q,
        (condition_1 x = ok false /\ condition_2 x = ok true
         /\ messages_last_content x = ok q)
        \/ (condition_1 x = ok false /\ condition_2 x = ok false
            /\ condition_3 x = ok true /\ input_text x = ok q) ->
        outcome run = fst (retriever q w)
        /\ final_world run = snd (retriever q w)
        /\ search_queries t = [q]
        /\ calls is_rewrite t = 0)
  /\ (condition_1 x = ok false /\ condition_2 x = ok false
      /\ condition_3 x = ok true /\ x !! "input" = None ->
      outcome run = raise (KeyError (VStr "input"))
      /\ final_world run = w
      /\ search_queries t = []).
Proof.
  cbv zeta. destruct (invoke_run x w) as (Hs & H1 & H2 & _).
  cbv zeta in Hs.
  split; [rewrite Hs; reflexivity|].
  split; [exact H2|]. split; [exact H1|].
  rewrite invoke_cases, condition_1_spec, condition_2_spec.
  unfold condition_3.
  destruct (hasMultiTurnMessages x);
    [|destruct (hasSingleTurnMessages x);
      [|destruct (negb (truthy (dict_get x "chat_history" (VBool false))))]].
  - split; [|split].
    + intros _. unfold query_rewrite_pipeline.
      destruct (prompt_invoke prompt x w) as [[e|p] w1]; [easy|].
      destruct (llm p w1) as [[e|o] w2]; [easy|].
      destruct (StrOutputParser o w2) as [[e|s] w3]; [easy|].
      destruct (retriever (VStr s) w3) as [r w4]; easy.
    + intros q [(H & _)|(H & _)]; discriminate H.
    + intros (H & _); discriminate H.
  - split; [|split].
    + intros [H|(_ & H & _)]; discriminate H.
    + intros q [(_ & _ & Hq)|(_ & H & _)]; [|discriminate H].
      unfold passthrough. rewrite Hq. unfold ok. cbv iota beta.
      destruct (retriever q w) as [r w']; easy.
    + intros (_ & H & _); discriminate H.
  - split; [|split].
    + intros [H|(_ & _ & H)]; discriminate H.
    + intros q [(_ & H & _)|(_ & _ & _ & Hq)]; [discriminate H|].
      unfold passthrough. rewrite Hq. unfold ok. cbv iota beta.
      destruct (retriever q w) as [r w']; easy.
    + intros (_ & _ & _ & Hi). unfold passthrough, input_text, dict_getitem.
      rewrite Hi. easy.
  - split; [|split].
    + intros _. unfold query_rewrite_pipeline.
      destruct (prompt_invoke prompt x w) as [[e|p] w1]; [easy|].
      destruct (llm p w1) as [[e|o] w2]; [easy|].
      destruct (StrOutputParser o w2) as [[e|s] w3]; [easy|].
      destruct (retriever (VStr s) w3) as [r w4]; easy.
    + intros q [(_ & H & _)|(_ & _ & H & _)]; discriminate H.
    + intros (_ & _ & H & _); discriminate H.
Qed.

(** C10: with no message list, an empty or absent [chat_history] and no
    [input] key, the third branch runs and its lambda raises the
    [KeyError] of [x[input]]: the retriever is not reached. *)
Theorem missing_input_raises_KeyError (x : Dict) (w : W) :
  isMessageList x = false ->
  hasEmptyLegacyHistory x = true ->
  x !! "input" = None ->
  invoke router x w =
    (raise (KeyError (VStr "input")), w,
     [EvCondition 1 (ok false); EvCondition 2 (ok false);
      EvCondition 3 (ok true); EvBranch 3;
      EvInvoke (CallPassthrough x) (Some (KeyError (VStr "input")))]).
Proof.
  intros Hm Hh Hi.
  rewrite invoke_cases. unfold hasMultiTurnMessages, hasSingleTurnMessages.
  rewrite Hm, (hasEmptyLegacyHistory_falsy x Hh).
  cbn [andb negb]. unfold passthrough, input_text, dict_getitem. rewrite Hi.
  reflexivity.
Qed.

End Routing.

(** ** Beyond the claims: what else the chain guarantees *)

Section Coverage.

Context {W PromptValue LLMOut Doc : Type}.
Variable StrOutputParser : @Collaborator W LLMOut string.
Variable llm : @LanguageModelLike W PromptValue LLMOut.
Variable retriever : @RetrieverLike W Doc.
Variable prompt : @BasePromptTemplate W PromptValue.

Let router : Runnable Dict (list Doc) :=
  retrieve_documents StrOutputParser llm retriever prompt.

Lemma isinstance_BaseMessage_Forall (l : list PyVal) :
  forallb isinstance_BaseMessage l = true
  <-> Forall (fun v => exists role c, v = VMsg role c) l.
Proof.
  rewrite forallb_forall, List.Forall_forall. split; intros H v Hv.
  - specialize (H v Hv). destruct v; try discriminate H. eauto.
  - destruct (H v Hv) as (role & c & ->). reflexivity.
Qed.

(** The conditions a run evaluates, by the classification of the turn. *)
Lemma invoke_conditions (x : Dict) (w : W) :
  conditions (trace (invoke router x w)) =
    if hasMultiTurnMessages x then [(1, ok true)]
    else if hasSingleTurnMessages x then [(1, ok false); (2, ok true)]
    else [(1, ok false); (2, ok false);
          (3, ok (negb (truthy (dict_get x "chat_history" (VBool false)))))].
Proof.
  unfold router. rewrite invoke_cases.
  pose proof (rewrite_pipeline_quiet StrOutputParser llm retriever prompt x w)
    as (_ & R & _).
  pose proof (passthrough_quiet (PromptValue := PromptValue)
                (LLMOut := LLMOut) retriever messages_last_content x w)
    as (_ & M & _).
  pose proof (passthrough_quiet (PromptValue := PromptValue)
                (LLMOut := LLMOut) retriever input_text x w) as (_ & I & _).
  destruct (hasMultiTurnMessages x);
    [|destruct (hasSingleTurnMessages x);
      [|destruct (negb (truthy (dict_get x "chat_history" (VBool false))))]];
    match goal with |- context [after ?pre ?run] =>
      destruct (after_outcome pre run) as (_ & _ & ->) end;
    rewrite conditions_app; first [rewrite R|rewrite M|rewrite I]; reflexivity.
Qed.

Lemma invoke_started (x : Dict) (w : W) :
  started (trace (invoke router x w)) =
    [ if hasMultiTurnMessages x then Branch 1
      else if hasSingleTurnMessages x then Branch 2
      else if negb (truthy (dict_get x "chat_history" (VBool false)))
      then Branch 3 else Default ].
Proof.
  destruct (invoke_run StrOutputParser llm retriever prompt x w) as (H & _).
  exact H.
Qed.

(** X1: the classifier returns a boolean on every dictionary, and the
    boolean is [True] exactly when [messages] is bound to a non-empty list
    whose elements are all messages; a missing key counts as the empty
    list. *)
Theorem classifier_true_iff (x : Dict) :
  exists b : bool,
    messages_param_is_message_list x = ok b
    /\ (b = true <->
        exists m ms,
          x !! "messages" = Some (VList (m :: ms))
          /\ Forall (fun v => exists role c, v = VMsg role c) (m :: ms)).
Proof.
  exists (isMessageList x). split;
    [apply messages_param_is_message_list_spec|].
  unfold isMessageList. split.
  - destruct (x !! "messages") as [[| | | |[|m ms]| | |]|]; try discriminate.
    intros H. exists m, ms. split; [reflexivity|].
    apply isinstance_BaseMessage_Forall, H.
  - intros (m & ms & -> & H). apply isinstance_BaseMessage_Forall, H.
Qed.

(** X2: which branch runs depends on the keys [messages] and
    [chat_history] alone: two turns that agree on these two keys have the
    same conditions evaluated, with the same values, and the same action
    started, whatever else they hold and in whatever worlds. *)
Theorem branch_depends_on_messages_and_history (x x' : Dict) (w w' : W) :
  x !! "messages" = x' !! "messages" ->
  x !! "chat_history" = x' !! "chat_history" ->
  conditions (trace (invoke router x w))
    = conditions (trace (invoke router x' w'))
  /\ started (trace (invoke router x w))
     = started (trace (invoke router x' w')).
Proof.
  intros Hm Hh.
  rewrite !invoke_conditions, !invoke_started.
  unfold hasMultiTurnMessages, hasSingleTurnMessages, isMessageList,
    messages_length, dict_get.
  rewrite Hm, Hh. split; reflexivity.
Qed.

(** X3: a non-empty list of messages takes precedence over the legacy
    keys: the action started is the first branch for more than one message
    and the second for exactly one, and the third condition, the only one
    that reads [chat_history], is not evaluated. *)
Theorem message_list_overrides_history (x : Dict) (w : W) :
  isMessageList x = true ->
  started (trace (invoke router x w))
    = [if (1 <? messages_length x)%nat then Branch 1 else Branch 2]
  /\ Forall (fun c => fst c <> 3) (conditions (trace (invoke router x w))).
Proof.
  intros Hm. rewrite invoke_conditions, invoke_started.
  assert (Hlen : messages_length x <> 0).
  { revert Hm. unfold isMessageList, messages_length.
    destruct (x !! "messages") as [[| | | |[|m ms]| | |]|]; discriminate. }
  unfold hasMultiTurnMessages, hasSingleTurnMessages. rewrite Hm. cbn [andb].
  destruct (1 <? messages_length x)%nat eqn:E1.
  - split; [reflexivity|]. repeat constructor. discriminate.
  - assert (E2 : (messages_length x =? 1)%nat = true).
    { apply Nat.eqb_eq. apply Nat.ltb_ge in E1. lia. }
    rewrite E2. split; [reflexivity|]. repeat constructor; discriminate.
Qed.

(** X4: with a list of exactly one message, nothing else in the turn
    matters: two turns carrying the same single message, invoked in the
    same world, send the same query, return or raise the same and leave
    the same world. *)
Theorem single_message_ignores_other_keys
    (x x' : Dict) (role : string) (c : PyVal) (w : W) :
  x !! "messages" = Some (VList [VMsg role c]) ->
  x' !! "messages" = Some (VList [VMsg role c]) ->
  outcome (invoke router x w) = outcome (invoke router x' w)
  /\ final_world (invoke router x w) = final_world (invoke router x' w)
  /\ search_queries (trace (invoke router x w))
     = search_queries (trace (invoke router x' w)).
Proof.
  intros Hx Hx'. unfold router. rewrite !invoke_cases.
  unfold hasMultiTurnMessages, hasSingleTurnMessages, isMessageList,
    messages_length. rewrite Hx, Hx'. cbn [forallb isinstance_BaseMessage
    andb length Nat.ltb Nat.leb Nat.eqb].
  unfold passthrough, messages_last_content, dict_getitem. rewrite Hx, Hx'.
  cbn [py_bind ok py_last rev app py_content].
  destruct (retriever c w) as [r u]. repeat split; reflexivity.
Qed.

(** X5: without a message list, the third branch (passthrough) runs when
    [chat_history] is missing or bound to [None], [False], [0], the empty
    string, list, tuple or dict; the default (rewriting) runs when it is
    bound to [True], a non-zero integer, a non-empty string, list, tuple
    or dict, or a message. *)
Theorem legacy_history_falsy_and_truthy_values (x : Dict) (w : W) :
  isMessageList x = false ->
  (x !! "chat_history" = None
   \/ (exists h, x !! "chat_history" = Some h
         /\ In h [VNone; VBool false; VInt 0; VStr ""; VList [];
                  VTuple []; VDict []]) ->
   started (trace (invoke router x w)) = [Branch 3])
  /\ (forall h, x !! "chat_history" = Some h ->
       h = VBool true
       \/ (exists n, h = VInt n /\ n <> 0%Z)
       \/ (exists c s, h = VStr (String c s))
       \/ (exists a l, h = VList (a :: l))
       \/ (exists a l, h = VTuple (a :: l))
       \/ (exists kv d, h = VDict (kv :: d))
       \/ (exists role c, h = VMsg role c) ->
       started (trace (invoke router x w)) = [Default]).
Proof.
  intros Hm. rewrite invoke_started.
  unfold hasMultiTurnMessages, hasSingleTurnMessages. rewrite Hm.
  cbn [andb]. unfold dict_get. split.
  - intros [->|(h & -> & Hh)]; [reflexivity|].
    cbn [In] in Hh.
    destruct Hh as [<-|[<-|[<-|[<-|[<-|[<-|[<-|[]]]]]]]]; reflexivity.
  - intros h -> Hh. cbn [default from_option id].
    destruct Hh as [->|[(n & -> & Hn)|[(c & s & ->)|[(a & l & ->)
      |[(a & l & ->)|[(kv & d & ->)|(role & c & ->)]]]]]]; try reflexivity.
    cbn [truthy]. apply Z.eqb_neq in Hn. rewrite Hn. reflexivity.
Qed.

(** X6: the lambda of the second branch reads [x[messages][-1].content]
    without any check of its own; where the condition of that branch holds
    the list has exactly one element, a message, and the lambda returns
    its content: it raises none of its three possible errors. *)
Theorem guarded_message_content_safe (x : Dict) :
  condition_2 x = ok true ->
  exists role c,
    x !! "messages" = Some (VList [VMsg role c])
    /\ messages_last_content x = ok c.
Proof.
  rewrite condition_2_spec. intros [= H]. revert H.
  unfold hasSingleTurnMessages, isMessageList, messages_length,
    messages_last_content, dict_getitem.
  destruct (x !! "messages") as [[| | | |[|m [|m' ms]]| | |]|];
    try discriminate.
  - destruct m; try discriminate. intros _. eexists _, _.
    split; reflexivity.
  - intros [_ H]%andb_prop. discriminate H.
Qed.

(** X7: taken by itself, that lambda raises [KeyError] when the key
    [messages] is missing, [IndexError] when the list is empty,
    [AttributeError] when the last element is a string, and it returns the
    content of the last message of a longer list, whatever the elements
    before it are. *)
Theorem message_content_lambda_edges (x : Dict) :
  (x !! "messages" = None ->
     messages_last_content x = raise (KeyError (VStr "messages")))
  /\ (x !! "messages" = Some (VList []) ->
       messages_last_content x = raise IndexError)
  /\ (forall ms s, x !! "messages" = Some (VList (ms ++ [VStr s])) ->
       messages_last_content x = raise (AttributeError "content"))
  /\ (forall ms role c,
       x !! "messages" = Some (VList (ms ++ [VMsg role c])) ->
       messages_last_content x = ok c).
Proof.
  unfold messages_last_content, dict_getitem.
  repeat split; intros; rewrite H; cbn [py_bind ok raise py_last];
    try rewrite rev_unit; reflexivity.
Qed.

(** *** How often each stage runs *)

Lemma rewrite_pipeline_counts (x : Dict) (w : W) :
  let run := query_rewrite_pipeline StrOutputParser llm retriever prompt x w in
  let t := trace run in
  calls is_passthrough t = 0 /\ calls is_prompt t = 1
  /\ calls is_llm t <= 1
  /\ calls is_parser t <= calls is_llm t
  /\ calls is_retriever t <= calls is_parser t
  /\ length (search_queries t) = calls is_retriever t
  /\ (forall docs, outcome run = inr docs ->
        calls is_llm t = 1 /\ calls is_parser t = 1
        /\ calls is_retriever t = 1)
  /\ (forall c e, In (EvInvoke c (Some e)) t ->
        is_retriever (EvInvoke c (Some e)) = false ->
        calls is_retriever t = 0).
Proof.
  unfold query_rewrite_pipeline, outcome, trace, calls.
  destruct (prompt_invoke prompt x w) as [[e|p] w1];
    [cbn; repeat split; intros; (lia || discriminate)|].
  destruct (llm p w1) as [[e|o] w2];
    [cbn; repeat split; intros; (lia || discriminate)|].
  destruct (StrOutputParser o w2) as [[e|s] w3];
    [cbn; repeat split; intros; (lia || discriminate)|].
  destruct (retriever (VStr s) w3) as [[e|docs] w4]; cbn;
    repeat split; intros; try (lia || discriminate).
  - exfalso.
    repeat match goal with
      | H : _ \/ _ |- _ => destruct H as [H|H]
      | H : False |- _ => destruct H
      | H : EvInvoke _ _ = EvInvoke _ _ |- _ => inversion H; clear H; subst
      end.
    discriminate.
  - exfalso.
    repeat match goal with
      | H : _ \/ _ |- _ => destruct H as [H|H]
      | H : False |- _ => destruct H
      | H : EvInvoke _ _ = EvInvoke _ _ |- _ => inversion H; clear H; subst
      end.
Qed.

Lemma passthrough_counts (text : Dict -> Py PyVal) (x : Dict) (w : W) :
  let run := passthrough (PromptValue := PromptValue) (LLMOut := LLMOut)
               retriever text x w in
  let t := trace run in
  calls is_passthrough t = 1 /\ calls is_prompt t = 0
  /\ calls is_llm t = 0 /\ calls is_parser t = 0
  /\ calls is_retriever t <= 1
  /\ length (search_queries t) = calls is_retriever t
  /\ (forall docs, outcome run = inr docs -> calls is_retriever t = 1)
  /\ (forall c e, In (EvInvoke c (Some e)) t ->
        is_retriever (EvInvoke c (Some e)) = false ->
        calls is_retriever t = 0).
Proof.
  unfold passthrough, outcome, trace, calls.
  destruct (text x) as [e|q];
    [cbn; repeat split; intros; (lia || discriminate)|].
  destruct (retriever q w) as [[e|docs] w']; cbn;
    repeat split; intros; try (lia || discriminate).
  - exfalso.
    repeat match goal with
      | H : _ \/ _ |- _ => destruct H as [H|H]
      | H : False |- _ => destruct H
      | H : EvInvoke _ _ = EvInvoke _ _ |- _ => inversion H; clear H; subst
      end.
    discriminate.
  - exfalso.
    repeat match goal with
      | H : _ \/ _ |- _ => destruct H as [H|H]
      | H : False |- _ => destruct H
      | H : EvInvoke _ _ = EvInvoke _ _ |- _ => inversion H; clear H; subst
      end.
Qed.

Lemma search_queries_dispatch (pre t : list (@Event PromptValue LLMOut)) :
  forallb is_dispatch pre = true ->
  search_queries (pre ++ t) = search_queries t.
Proof.
  induction pre as [|ev pre IH]; [reflexivity|].
  cbn [forallb app]. intros [Hev Hpre]%andb_prop.
  destruct ev; try discriminate Hev; cbn [search_queries]; auto.
Qed.

Lemma in_dispatch (pre t : list (@Event PromptValue LLMOut))
    (c : Call) (oe : option Exn) :
  forallb is_dispatch pre = true ->
  In (EvInvoke c oe) (pre ++ t) -> In (EvInvoke c oe) t.
Proof.
  intros Hpre [Hin|Hin]%in_app_or; [|exact Hin].
  rewrite forallb_forall in Hpre. apply Hpre in Hin. discriminate Hin.
Qed.

(** The counts of an action are kept by the dispatch before it, which
    invokes nothing. *)
Lemma after_stage_counts (pre : list Event)
    (run : Py (list Doc) * W * list (@Event PromptValue LLMOut)) :
  forallb is_dispatch pre = true ->
  calls is_passthrough (trace run) + calls is_prompt (trace run) = 1 ->
  calls is_llm (trace run) <= calls is_prompt (trace run) ->
  calls is_parser (trace run) <= calls is_llm (trace run) ->
  calls is_retriever (trace run)
    <= calls is_parser (trace run) + calls is_passthrough (trace run) ->
  length (search_queries (trace run)) = calls is_retriever (trace run) ->
  (forall docs, outcome run = inr docs ->
     calls is_retriever (trace run) = 1
     /\ calls is_llm (trace run) = calls is_prompt (trace run)
     /\ calls is_parser (trace run) = calls is_prompt (trace run)) ->
  (forall c e, In (EvInvoke c (Some e)) (trace run) ->
     is_retriever (EvInvoke c (Some e)) = false ->
     calls is_retriever (trace run) = 0) ->
  let t := trace (after pre run) in
  calls is_passthrough t + calls is_prompt t = 1
  /\ calls is_llm t <= calls is_prompt t
  /\ calls is_parser t <= calls is_llm t
  /\ calls is_retriever t <= calls is_parser t + calls is_passthrough t
  /\ length (search_queries t) = calls is_retriever t
  /\ (forall docs, outcome (after pre run) = inr docs ->
        calls is_retriever t = 1
        /\ calls is_llm t = calls is_prompt t
        /\ calls is_parser t = calls is_prompt t)
  /\ (forall c e, In (EvInvoke c (Some e)) t ->
        is_retriever (EvInvoke c (Some e)) = false ->
        calls is_retriever t = 0).
Proof.
  intros Hpre H1 H2 H3 H4 H5 H6 H7. cbv zeta.
  destruct (after_outcome pre run) as (-> & _ & ->).
  rewrite (search_queries_dispatch pre _ Hpre).
  rewrite !calls_dispatch by
    (try exact Hpre; intros [] ?; try discriminate; reflexivity).
  repeat (split; [assumption|]).
  intros c e Hin. apply H7. apply (in_dispatch pre _ c _ Hpre Hin).
Qed.

Lemma invoke_stage_counts (x : Dict) (w : W) :
  let run := invoke router x w in
  let t := trace run in
  calls is_passthrough t + calls is_prompt t = 1
  /\ calls is_llm t <= calls is_prompt t
  /\ calls is_parser t <= calls is_llm t
  /\ calls is_retriever t <= calls is_parser t + calls is_passthrough t
  /\ length (search_queries t) = calls is_retriever t
  /\ (forall docs, outcome run = inr docs ->
        calls is_retriever t = 1
        /\ calls is_llm t = calls is_prompt t
        /\ calls is_parser t = calls is_prompt t)
  /\ (forall c e, In (EvInvoke c (Some e)) t ->
        is_retriever (EvInvoke c (Some e)) = false ->
        calls is_retriever t = 0).
Proof.
  cbv zeta. unfold router. rewrite invoke_cases.
  pose proof (rewrite_pipeline_counts x w) as R.
  pose proof (passthrough_counts messages_last_content x w) as M.
  pose proof (passthrough_counts input_text x w) as I.
  cbv zeta in R, M, I.
  destruct R as (R1 & R2 & R3 & R4 & R5 & R6 & R7 & R8).
  destruct M as (M1 & M2 & M3 & M4 & M5 & M6 & M7 & M8).
  destruct I as (I1 & I2 & I3 & I4 & I5 & I6 & I7 & I8).
  destruct (hasMultiTurnMessages x);
    [|destruct (hasSingleTurnMessages x);
      [|destruct (negb (truthy (dict_get x "chat_history" (VBool false))))]];
    apply after_stage_counts; try reflexivity; try assumption; try lia.
  - intros docs Hd. destruct (R7 docs Hd) as (? & ? & ?). lia.
  - intros docs Hd. specialize (M7 docs Hd). lia.
  - intros docs Hd. specialize (I7 docs Hd). lia.
  - intros docs Hd. destruct (R7 docs Hd) as (? & ? & ?). lia.
Qed.

(** X8: an invocation that returns documents called the retriever exactly
    once, with one search query, and called the model and the parser
    exactly as often as it rendered the prompt: once each when rewriting,
    not at all when passing the text through. *)
Theorem successful_invocation_calls (x : Dict) (w : W) (docs : list Doc) :
  outcome (invoke router x w) = inr docs ->
  let t := trace (invoke router x w) in
  calls is_retriever t = 1
  /\ length (search_queries t) = 1
  /\ calls is_llm t = calls is_prompt t
  /\ calls is_parser t = calls is_prompt t
  /\ calls is_passthrough t + calls is_prompt t = 1.
Proof.
  intros Hd. cbv zeta.
  destruct (invoke_stage_counts x w) as (H1 & _ & _ & _ & H5 & H6 & _).
  destruct (H6 docs Hd) as (Hr & Hl & Hp).
  rewrite H5. repeat split; assumption.
Qed.

Lemma rewrite_pipeline_stages (x : Dict) (w : W) :
  let t := trace (query_rewrite_pipeline StrOutputParser llm retriever
                    prompt x w) in
  (stages t = [SPrompt] /\ failures t = [SPrompt])
  \/ (stages t = [SPrompt; SLLM] /\ failures t = [SLLM])
  \/ (stages t = [SPrompt; SLLM; SParser] /\ failures t = [SParser])
  \/ (stages t = [SPrompt; SLLM; SParser; SRetriever]
      /\ (failures t = [] \/ failures t = [SRetriever])).
Proof.
  unfold query_rewrite_pipeline, trace.
  destruct (prompt_invoke prompt x w) as [[e|p] w1]; [left; easy|].
  destruct (llm p w1) as [[e|o] w2]; [right; left; easy|].
  destruct (StrOutputParser o w2) as [[e|s] w3]; [right; right; left; easy|].
  destruct (retriever (VStr s) w3) as [[e|docs] w4];
    right; right; right; cbn; auto.
Qed.

Lemma passthrough_stages (text : Dict -> Py PyVal) (x : Dict) (w : W) :
  let t := trace (passthrough (PromptValue := PromptValue)
                    (LLMOut := LLMOut) retriever text x w) in
  (stages t = [SPassthrough] /\ failures t = [SPassthrough])
  \/ (stages t = [SPassthrough; SRetriever]
      /\ (failures t = [] \/ failures t = [SRetriever])).
Proof.
  unfold passthrough, trace.
  destruct (text x) as [e|q]; [left; easy|].
  destruct (retriever q w) as [[e|docs] w']; right; cbn; auto.
Qed.

(** X9: the runnables of an invocation run in a fixed order, read off the
    trace: prompt, model, parser, retriever on a rewriting branch, or the
    passthrough lambda, then the retriever.  A stage runs only when every
    stage before it ran and returned: the stages invoked are an initial
    part of one of the two sequences, and when the part is a proper one
    its last stage is the only one that raised. *)
Theorem stages_run_in_order (x : Dict) (w : W) :
  let t := trace (invoke router x w) in
  (stages t = [SPrompt] /\ failures t = [SPrompt])
  \/ (stages t = [SPrompt; SLLM] /\ failures t = [SLLM])
  \/ (stages t = [SPrompt; SLLM; SParser] /\ failures t = [SParser])
  \/ (stages t = [SPrompt; SLLM; SParser; SRetriever]
      /\ (failures t = [] \/ failures t = [SRetriever]))
  \/ (stages t = [SPassthrough] /\ failures t = [SPassthrough])
  \/ (stages t = [SPassthrough; SRetriever]
      /\ (failures t = [] \/ failures t = [SRetriever])).
Proof.
  cbv zeta. unfold router. rewrite invoke_cases.
  pose proof (rewrite_pipeline_stages x w) as R.
  pose proof (passthrough_stages messages_last_content x w) as M.
  pose proof (passthrough_stages input_text x w) as I.
  cbv zeta in R, M, I.
  destruct (hasMultiTurnMessages x);
    [|destruct (hasSingleTurnMessages x);
      [|destruct (negb (truthy (dict_get x "chat_history" (VBool false))))]];
    match goal with |- context [after ?pre ?run] =>
      destruct (after_outcome pre run) as (_ & _ & ->) end;
    cbn [app stages failures]; tauto.
Qed.

(** X10: when the prompt, the model, the parser or a passthrough lambda
    raises, the retriever is not called at all in that invocation and
    receives no query. *)
Theorem no_retrieval_after_failed_stage
    (x : Dict) (w : W) (c : Call) (e : Exn) :
  In (EvInvoke c (Some e)) (trace (invoke router x w)) ->
  is_retriever (EvInvoke c (Some e)) = false ->
  calls is_retriever (trace (invoke router x w)) = 0
  /\ search_queries (trace (invoke router x w)) = [].
Proof.
  intros Hin Hc.
  destruct (invoke_stage_counts x w) as (_ & _ & _ & _ & H5 & _ & H7).
  specialize (H7 c e Hin Hc). split; [exact H7|].
  rewrite H7 in H5. destruct (search_queries _); [reflexivity|discriminate H5].
Qed.

(** X11: a [messages] value that is not a non-empty list of messages is
    as good as no [messages] key: the turn and the turn with the key
    deleted have the same conditions evaluated and the same action
    started, and when [chat_history] is false they send the same query,
    return or raise the same and leave the same world. *)
Theorem malformed_messages_as_absent (x : Dict) (w : W) :
  isMessageList x = false ->
  let x' : Dict := delete "messages" x in
  conditions (trace (invoke router x w))
    = conditions (trace (invoke router x' w))
  /\ started (trace (invoke router x w))
     = started (trace (invoke router x' w))
  /\ (truthy (dict_get x "chat_history" (VBool false)) = false ->
      outcome (invoke router x w) = outcome (invoke router x' w)
      /\ final_world (invoke router x w) = final_world (invoke router x' w)
      /\ search_queries (trace (invoke router x w))
         = search_queries (trace (invoke router x' w))).
Proof.
  intros Hm. cbv zeta.
  assert (Hm' : isMessageList (delete "messages" x) = false).
  { unfold isMessageList. rewrite lookup_delete_eq. reflexivity. }
  assert (Hh : dict_get (delete "messages" x) "chat_history" (VBool false)
               = dict_get x "chat_history" (VBool false)).
  { unfold dict_get. rewrite lookup_delete_ne by discriminate. reflexivity. }
  assert (Hi : input_text (delete "messages" x) = input_text x).
  { unfold input_text, dict_getitem.
    rewrite lookup_delete_ne by discriminate. reflexivity. }
  rewrite !invoke_conditions, !invoke_started.
  unfold router. rewrite !invoke_cases.
  unfold hasMultiTurnMessages, hasSingleTurnMessages.
  rewrite Hm, Hm', Hh. cbn [andb].
  split; [reflexivity|split; [reflexivity|]].
  intros ->. cbn [negb]. unfold passthrough. rewrite Hi.
  destruct (input_text x) as [e|q]; [repeat split; reflexivity|].
  destruct (retriever q w) as [r u]. repeat split; reflexivity.
Qed.

End Coverage.

(** ** The scenarios of the spec (8.7), evaluated *)

Module Scenario.
Import Example.

Example three_messages_rewritten :
  chain three_messages 0 =
    (ok ["doc 1 for standalone: Rephrase the last message";
         "doc 2 for standalone: Rephrase the last message"], 4,
     [EvCondition 1 (ok true); EvBranch 1;
      EvInvoke (CallPrompt three_messages) None;
      EvInvoke (CallLLM "Rephrase the last message") None;
      EvInvoke (CallParser "standalone: Rephrase the last message") None;
      EvInvoke
        (CallRetriever (VStr "standalone: Rephrase the last message")) None]).
Proof. reflexivity. Qed.

Example one_message_passed_through :
  chain one_message 0 =
    (ok ["doc 1 for What is X?"; "doc 2 for What is X?"], 1,
     [EvCondition 1 (ok false); EvCondition 2 (ok true); EvBranch 2;
      EvInvoke (CallPassthrough one_message) None;
      EvInvoke (CallRetriever (VStr "What is X?")) None]).
Proof. reflexivity. Qed.

Example no_history_passed_through :
  chain no_history 0 =
    (ok ["doc 1 for What is X?"; "doc 2 for What is X?"], 1,
     [EvCondition 1 (ok false); EvCondition 2 (ok false);
      EvCondition 3 (ok true); EvBranch 3;
      EvInvoke (CallPassthrough no_history) None;
      EvInvoke (CallRetriever (VStr "What is X?")) None]).
Proof. reflexivity. Qed.

Example with_history_rewritten :
  chain with_history 0 =
    (ok ["doc 1 for standalone: Rephrase: What about it?";
         "doc 2 for standalone: Rephrase: What about it?"], 4,
     [EvCondition 1 (ok false); EvCondition 2 (ok false);
      EvCondition 3 (ok false); EvDefault;
      EvInvoke (CallPrompt with_history) None;
      EvInvoke (CallLLM "Rephrase: What about it?") None;
      EvInvoke (CallParser "standalone: Rephrase: What about it?") None;
      EvInvoke
        (CallRetriever (VStr "standalone: Rephrase: What about it?")) None]).
Proof. reflexivity. Qed.

Example failing_llm_surfaces :
  invoke (retrieve_documents parser failing_llm retriever prompt)
    with_history 0 =
    (raise (Other "RateLimitError" "429"), 2,
     [EvCondition 1 (ok false); EvCondition 2 (ok false);
      EvCondition 3 (ok false); EvDefault;
      EvInvoke (CallPrompt with_history) None;
      EvInvoke (CallLLM "Rephrase: What about it?")
        (Some (Other "RateLimitError" "429"))]).
Proof. reflexivity. Qed.

End Scenario.

(** ** The claims on the concrete collaborators *)

Module Witness.
Import Example.

Lemma render_deterministic : deterministic render.
Proof.
  intros x n1 n2. unfold render.
  destruct (x !! "input") as [[]|]; try reflexivity;
    destruct (x !! "messages") as [[]|]; reflexivity.
Qed.

Lemma llm_deterministic : deterministic llm.
Proof. intros p n1 n2. reflexivity. Qed.

Lemma parser_deterministic : deterministic parser.
Proof. intros o n1 n2. reflexivity. Qed.

Lemma retriever_deterministic : deterministic retriever.
Proof. intros q n1 n2. destruct q; reflexivity. Qed.

Lemma multi_turn_messages_witness :
  chain three_messages 0 =
    after [EvCondition 1 (ok true); EvBranch 1]
      (query_rewrite_pipeline parser llm retriever prompt three_messages 0)
  /\ calls is_passthrough (trace (chain three_messages 0)) = 0.
Proof.
  apply (multi_turn_messages_run_rewrite_pipeline parser llm retriever prompt
           three_messages
           [user "What is X?"; assistant "X is ..."; user "What about Y?"] 0).
  - reflexivity.
  - simpl. lia.
  - reflexivity.
Defined.

Lemma single_message_witness :
  chain one_message 0 =
    (let '(r, w') := retriever (VStr "What is X?") 0 in
     (r, w',
      [EvCondition 1 (ok false); EvCondition 2 (ok true); EvBranch 2;
       EvInvoke (CallPassthrough one_message) None;
       EvInvoke (CallRetriever (VStr "What is X?")) (raised r)]))
  /\ calls is_rewrite (trace (chain one_message 0)) = 0
  /\ search_queries (trace (chain one_message 0)) = [VStr "What is X?"].
Proof.
  apply (single_message_content_passthrough parser llm retriever prompt
           one_message "user" (VStr "What is X?") 0).
  reflexivity.
Defined.

Lemma empty_legacy_history_witness :
  chain no_history 0 =
    (let '(r, w') := retriever (VStr "What is X?") 0 in
     (r, w',
      [EvCondition 1 (ok false); EvCondition 2 (ok false);
       EvCondition 3 (ok true); EvBranch 3;
       EvInvoke (CallPassthrough no_history) None;
       EvInvoke (CallRetriever (VStr "What is X?")) (raised r)]))
  /\ calls is_rewrite (trace (chain no_history 0)) = 0
  /\ search_queries (trace (chain no_history 0)) = [VStr "What is X?"].
Proof.
  apply (empty_legacy_history_input_passthrough parser llm retriever prompt
           no_history (VStr "What is X?") 0); reflexivity.
Defined.

Lemma nonempty_legacy_history_witness :
  chain with_history 0 =
    after [EvCondition 1 (ok false); EvCondition 2 (ok false);
           EvCondition 3 (ok false); EvDefault]
      (query_rewrite_pipeline parser llm retriever prompt with_history 0)
  /\ calls is_passthrough (trace (chain with_history 0)) = 0.
Proof.
  apply (nonempty_legacy_history_run_rewrite_pipeline parser llm retriever
           prompt with_history 0); reflexivity.
Defined.

Lemma construction_witness :
  create_history_aware_retriever parser llm retriever topic_prompt
  = raise (ValueError
             "Expected either `input` or `messages` to be prompt variables, but got "
             ["topic"])
  /\ create_history_aware_retriever parser llm retriever prompt
     = ok (retrieve_documents parser llm retriever prompt).
Proof.
  split.
  - destruct (construction_fails_iff_no_input_or_messages
                parser llm retriever topic_prompt) as ([_ Hfail] & H & _).
    destruct Hfail as [e He].
    { split; intros [Heq|[]]; discriminate Heq. }
    rewrite He, (H e He). reflexivity.
  - destruct (construction_fails_iff_no_input_or_messages
                parser llm retriever prompt) as (_ & _ & H & _).
    apply H. left. left. reflexivity.
Defined.

Lemma malformed_messages_witness :
  messages_param_is_message_list mixed_messages = ok false
  /\ condition_1 mixed_messages = ok false
  /\ condition_2 mixed_messages = ok false
  /\ exists b : bool,
       conditions (trace (chain mixed_messages 0))
         = [(1, ok false); (2, ok false); (3, ok b)]
       /\ started (trace (chain mixed_messages 0))
          = [if b then Branch 3 else Default].
Proof.
  apply (malformed_messages_fall_through parser llm retriever prompt
           mixed_messages (VList [user "What is X?"; VStr "X is ..."]) 0).
  - reflexivity.
  - right. right. eexists. split; reflexivity.
Defined.

Lemma exactly_one_witness :
  length (started (trace (chain one_message 0))) = 1.
Proof.
  apply (exactly_one_branch_action parser llm retriever prompt one_message 0).
Defined.

Lemma routing_deterministic_witness :
  started (trace (chain with_history 0)) = started (trace (chain with_history 7))
  /\ search_queries (trace (chain with_history 0))
     = search_queries (trace (chain with_history 7))
  /\ trace (chain with_history 0) = trace (chain with_history 7)
  /\ outcome (chain with_history 0) = outcome (chain with_history 7).
Proof.
  apply (routing_deterministic parser llm retriever prompt with_history 0 7).
  - exact render_deterministic.
  - exact llm_deterministic.
  - exact parser_deterministic.
  - exact retriever_deterministic.
Defined.

Lemma failing_llm_outcome_witness :
  outcome
    (invoke (retrieve_documents parser failing_llm retriever prompt)
       with_history 0)
  = raise (Other "RateLimitError" "429")
  /\ final_world
       (invoke (retrieve_documents parser failing_llm retriever prompt)
          with_history 0) = 2
  /\ search_queries
       (trace (invoke (retrieve_documents parser failing_llm retriever prompt)
                 with_history 0)) = [].
Proof.
  destruct (invocation_outcome_is_collaborator_outcome parser failing_llm
              retriever prompt with_history 0) as (_ & _ & _ & H & _).
  exact (H (or_intror (conj eq_refl (conj eq_refl eq_refl)))).
Defined.

Lemma total_collaborators_yet_KeyError :
  (forall x n, raised (fst (MoreExamples.total_render x n)) = None)
  /\ (forall p n, raised (fst (llm p n)) = None)
  /\ (forall o n, raised (fst (parser o n)) = None)
  /\ (forall q n, raised (fst (MoreExamples.total_retriever q n)) = None)
  /\ outcome
       (invoke (retrieve_documents parser llm MoreExamples.total_retriever
                  MoreExamples.total_prompt) only_history 0)
     = raise (KeyError (VStr "input"))
  /\ ~ (exists docs,
         outcome
           (invoke (retrieve_documents parser llm
                      MoreExamples.total_retriever
                      MoreExamples.total_prompt) only_history 0)
         = inr docs).
Proof.
  repeat split; try reflexivity.
  intros [docs H]. discriminate H.
Qed.

Lemma missing_input_witness :
  chain only_history 0 =
    (raise (KeyError (VStr "input")), 0,
     [EvCondition 1 (ok false); EvCondition 2 (ok false);
      EvCondition 3 (ok true); EvBranch 3;
      EvInvoke (CallPassthrough only_history)
        (Some (KeyError (VStr "input")))]).
Proof.
  apply (missing_input_raises_KeyError parser llm retriever prompt
           only_history 0); reflexivity.
Defined.

End Witness.

(** ** The further properties on the concrete collaborators *)

Module CoverageWitness.
Import Example MoreExamples.

Lemma branch_depends_witness :
  conditions (trace (chain no_history 0))
    = conditions (trace (chain no_history_other_input 5))
  /\ started (trace (chain no_history 0))
     = started (trace (chain no_history_other_input 5)).
Proof.
  apply (branch_depends_on_messages_and_history parser llm retriever prompt
           no_history no_history_other_input 0 5); reflexivity.
Defined.

Lemma message_list_overrides_witness :
  started (trace (chain one_message_and_history 0)) = [Branch 2]
  /\ Forall (fun c => fst c <> 3)
       (conditions (trace (chain one_message_and_history 0))).
Proof.
  apply (message_list_overrides_history parser llm retriever prompt
           one_message_and_history 0). reflexivity.
Defined.

Lemma single_message_ignores_witness :
  outcome (chain one_message 0) = outcome (chain one_message_and_history 0)
  /\ final_world (chain one_message 0)
     = final_world (chain one_message_and_history 0)
  /\ search_queries (trace (chain one_message 0))
     = search_queries (trace (chain one_message_and_history 0)).
Proof.
  apply (single_message_ignores_other_keys parser llm retriever prompt
           one_message one_message_and_history "user" (VStr "What is X?") 0);
    reflexivity.
Defined.

Lemma none_history_witness :
  started (trace (chain none_history 0)) = [Branch 3].
Proof.
  destruct (legacy_history_falsy_and_truthy_values parser llm retriever
              prompt none_history 0 eq_refl) as (H & _).
  apply H. right. exists VNone. split; [reflexivity|left; reflexivity].
Defined.

Lemma guarded_message_content_witness :
  exists role c,
    one_message !! "messages" = Some (VList [VMsg role c])
    /\ messages_last_content one_message = ok c.
Proof.
  apply (guarded_message_content_safe one_message). reflexivity.
Defined.

Lemma message_content_lambda_witness :
  messages_last_content (∅ : Dict) = raise (KeyError (VStr "messages"))
  /\ messages_last_content Example.mixed_messages
     = raise (AttributeError "content").
Proof.
  split.
  - apply (message_content_lambda_edges ∅). reflexivity.
  - destruct (message_content_lambda_edges mixed_messages) as (_ & _ & H & _).
    apply (H [user "What is X?"] "X is ..."). reflexivity.
Defined.

Lemma successful_invocation_witness :
  calls is_retriever (trace (chain with_history 0)) = 1
  /\ length (search_queries (trace (chain with_history 0))) = 1
  /\ calls is_llm (trace (chain with_history 0))
     = calls is_prompt (trace (chain with_history 0))
  /\ calls is_parser (trace (chain with_history 0))
     = calls is_prompt (trace (chain with_history 0))
  /\ calls is_passthrough (trace (chain with_history 0))
     + calls is_prompt (trace (chain with_history 0)) = 1.
Proof.
  apply (successful_invocation_calls parser llm retriever prompt
           with_history 0
           ["doc 1 for standalone: Rephrase: What about it?";
            "doc 2 for standalone: Rephrase: What about it?"]).
  reflexivity.
Defined.

Lemma no_retrieval_witness :
  calls is_retriever
    (trace (invoke (retrieve_documents failing_parser llm retriever prompt)
              with_history 0)) = 0
  /\ search_queries
       (trace (invoke (retrieve_documents failing_parser llm retriever prompt)
                 with_history 0)) = [].
Proof.
  apply (no_retrieval_after_failed_stage failing_parser llm retriever prompt
           with_history 0 (CallParser "standalone: Rephrase: What about it?")
           (Other "OutputParserException"
              "standalone: Rephrase: What about it?")).
  - do 6 right. left. reflexivity.
  - reflexivity.
Defined.

Lemma malformed_as_absent_witness :
  started (trace (chain mixed_messages 0))
    = started (trace (chain (delete "messages" mixed_messages) 0))
  /\ outcome (chain mixed_messages 0)
     = outcome (chain (delete "messages" mixed_messages) 0).
Proof.
  destruct (malformed_messages_as_absent parser llm retriever prompt
              mixed_messages 0 eq_refl) as (_ & Hs & H).
  split; [exact Hs|]. apply (H eq_refl).
Defined.

End CoverageWitness.
